(** * ClearProxy: proxy ingestion, job tracking and result aggregation

    A shallow embedding of [lib/utils.js] (detectFormat, normalizeProxy,
    parseProxies, formatOutput) and of the [ClearProxy] class of
    [lib/sdk.js] (check, getCustomUrlSummary), followed by the properties
    the specification states about them.

    Conventions.
    - A JavaScript string is a [string]; every [ascii] stands for one
      UTF-16 code unit in the range U+0000..U+00FF.
    - A JavaScript number is a [Z]: the numbers the program handles are
      ports, counters and status codes.  Fractions and NaN are outside the
      model; the one place that needs floating point (the percentage of
      getCustomUrlSummary) is left to a parameter.
    - Data received from JSON is a [jsval]; an object is an association
      list in property order, looked up by first match.
    - A computation that may throw returns an [outcome]. *)

From Stdlib Require Import String Ascii ZArith List Bool Lia DecimalString.
Import ListNotations.
Local Open Scope string_scope.
Local Open Scope Z_scope.
Set Warnings "-register-all".

(* ================================================================== *)
(** ** Strings *)
(* ================================================================== *)

Module Str.

Definition code (c : ascii) : N := N_of_ascii c.

(** WhiteSpace and LineTerminator code units below U+0100:
    TAB, LF, VT, FF, CR, SP and NBSP. *)
Definition is_ws (c : ascii) : bool :=
  let n := code c in
  (N.eqb n 9 || N.eqb n 10 || N.eqb n 11 || N.eqb n 12 || N.eqb n 13
   || N.eqb n 32 || N.eqb n 160)%bool.

Fixpoint trimStart (s : string) : string :=
  match s with
  | String c r => if is_ws c then trimStart r else s
  | EmptyString => EmptyString
  end.

Fixpoint trimEnd (s : string) : string :=
  match s with
  | String c r =>
      match trimEnd r with
      | EmptyString => if is_ws c then EmptyString else String c EmptyString
      | r' => String c r'
      end
  | EmptyString => EmptyString
  end.

(** [String.prototype.trim] *)
Definition trim (s : string) : string := trimEnd (trimStart s).

Definition is_empty (s : string) : bool :=
  match s with EmptyString => true | _ => false end.

(** ASCII case folding, which is all that the [i] flag of a regular
    expression without the [u] flag does to the letters of the pattern
    used here. *)
Definition lower (c : ascii) : ascii :=
  let n := code c in
  if (N.leb 65 n && N.leb n 90)%bool then ascii_of_N (n + 32) else c.

(** [strip_prefix_ci p s]: when [s] starts with [p] up to letter case,
    the rest of [s].  [p] is given in lower case. *)
Fixpoint strip_prefix_ci (p s : string) : option string :=
  match p with
  | EmptyString => Some s
  | String a p' =>
      match s with
      | String c s' =>
          if Ascii.eqb (lower c) a then strip_prefix_ci p' s' else None
      | EmptyString => None
      end
  end.

(** [String.prototype.startsWith], case-sensitive. *)
Fixpoint startsWith (s p : string) : bool :=
  match p with
  | EmptyString => true
  | String a p' =>
      match s with
      | String c s' => (Ascii.eqb c a && startsWith s' p')%bool
      | EmptyString => false
      end
  end.

(** [String.prototype.includes] *)
Fixpoint includes (s p : string) : bool :=
  (startsWith s p ||
   match s with
   | String _ s' => includes s' p
   | EmptyString => false
   end)%bool.

Fixpoint rev_onto (s acc : string) : string :=
  match s with
  | String c r => rev_onto r (String c acc)
  | EmptyString => acc
  end.

Definition rev (s : string) : string := rev_onto s EmptyString.

(** [String.prototype.endsWith] *)
Definition endsWith (s p : string) : bool := startsWith (rev s) (rev p).

(** [s.split(/\r?\n/)]: [cur] holds the current piece, reversed. *)
Fixpoint split_lines_from (s cur : string) : list string :=
  match s with
  | EmptyString => [rev cur]
  | String c r =>
      if Ascii.eqb c "010" then rev cur :: split_lines_from r EmptyString
      else
        match r with
        | String d r' =>
            if (Ascii.eqb c "013" && Ascii.eqb d "010")%bool
            then rev cur :: split_lines_from r' EmptyString
            else split_lines_from r (String c cur)
        | EmptyString => split_lines_from r (String c cur)
        end
  end.

Definition split_lines (s : string) : list string :=
  split_lines_from s EmptyString.

(** [Array.prototype.join] on an array of strings. *)
Fixpoint join (sep : string) (l : list string) : string :=
  match l with
  | [] => EmptyString
  | [x] => x
  | x :: r => x ++ sep ++ join sep r
  end.

(** [String.prototype.replace] with a string pattern: the first
    occurrence only. *)
Fixpoint drop (n : nat) (s : string) : string :=
  match n, s with
  | S k, String _ r => drop k r
  | _, _ => s
  end.

Fixpoint replace_first (s pat by_ : string) : string :=
  if startsWith s pat then by_ ++ drop (String.length pat) s
  else match s with
       | String c r => String c (replace_first r pat by_)
       | EmptyString => EmptyString
       end.

(** Number to string in base 10, as [Number.prototype.toString] does
    for integers. *)
Definition of_Z (n : Z) : string := NilZero.string_of_int (Z.to_int n).

End Str.

(* ================================================================== *)
(** ** JavaScript values and exceptions *)
(* ================================================================== *)

Inductive jsval : Type :=
| VUndefined
| VNull
| VBool (b : bool)
| VNum (n : Z)
| VStr (s : string)
| VArr (elems : list jsval)
| VObj (props : list (string * jsval)).

Inductive exn_class : Type := Error | TypeError | SyntaxError | SystemError.

(** A thrown exception: its constructor and its [message]. *)
Inductive exn : Type := Exn (cls : exn_class) (message : string).

Definition message (e : exn) : string := let 'Exn _ m := e in m.

Inductive outcome (A : Type) : Type :=
| Ret (a : A)
| Throw (e : exn).
Arguments Ret {A} a.
Arguments Throw {A} e.

Module JS.

(** ToBoolean *)
Definition truthy (v : jsval) : bool :=
  match v with
  | VUndefined | VNull => false
  | VBool b => b
  | VNum n => negb (n =? 0)
  | VStr s => negb (Str.is_empty s)
  | VArr _ | VObj _ => true
  end.

(** [a || b] *)
Definition or (a b : jsval) : jsval := if truthy a then a else b.

Definition nullish (v : jsval) : bool :=
  match v with VUndefined | VNull => true | _ => false end.

Definition isArray (v : jsval) : bool :=
  match v with VArr _ => true | _ => false end.

Definition is_string (v : jsval) : bool :=
  match v with VStr _ => true | _ => false end.

Fixpoint lookup (k : string) (props : list (string * jsval)) : jsval :=
  match props with
  | [] => VUndefined
  | (k', v) :: r => if String.eqb k k' then v else lookup k r
  end.

(** Property read [v.k] for the data properties the program reads (none
    of them is a method or a property of a prototype). *)
Definition get (v : jsval) (k : string) : outcome jsval :=
  match v with
  | VUndefined =>
      Throw (Exn TypeError
        ("Cannot read properties of undefined (reading '" ++ k ++ "')"))
  | VNull =>
      Throw (Exn TypeError
        ("Cannot read properties of null (reading '" ++ k ++ "')"))
  | VObj props => Ret (lookup k props)
  | VArr l =>
      Ret (if String.eqb k "length" then VNum (Z.of_nat (List.length l))
           else VUndefined)
  | VStr s =>
      Ret (if String.eqb k "length" then VNum (Z.of_nat (String.length s))
           else VUndefined)
  | VBool _ | VNum _ => Ret VUndefined
  end.

(** Property read on a value known not to be null or undefined. *)
Definition get' (v : jsval) (k : string) : jsval :=
  match get v k with Ret x => x | Throw _ => VUndefined end.

(** [v?.k] *)
Definition get_opt (v : jsval) (k : string) : jsval :=
  if nullish v then VUndefined else get' v k.

(** ToString, as a template literal applies it. *)
Fixpoint to_string (v : jsval) : string :=
  match v with
  | VUndefined => "undefined"
  | VNull => "null"
  | VBool true => "true"
  | VBool false => "false"
  | VNum n => Str.of_Z n
  | VStr s => s
  | VArr l =>
      Str.join ","
        ((fix elems (l : list jsval) : list string :=
            match l with
            | [] => []
            | x :: r =>
                (if nullish x then EmptyString else to_string x) :: elems r
            end) l)
  | VObj _ => "[object Object]"
  end.

(** [a === b] where [b] is a string literal. *)
Definition strict_eq_str (a : jsval) (s : string) : bool :=
  match a with VStr t => String.eqb t s | _ => false end.

End JS.

(** *** Computations that may throw *)

Definition bind {A B} (m : outcome A) (k : A -> outcome B) : outcome B :=
  match m with
  | Ret a => k a
  | Throw e => Throw e
  end.

(** [try { m } catch (err) { h err }] *)
Definition try_catch {A} (m : outcome A) (h : exn -> outcome A) : outcome A :=
  match m with
  | Ret a => Ret a
  | Throw e => h e
  end.

Declare Scope js_scope.
Delimit Scope js_scope with js.
Notation "x <- m ;; k" := (bind m (fun x => k))
  (at level 61, m at next level, right associativity) : js_scope.
Local Open Scope js_scope.

(** [l.map(f)] for a callback that may throw: the first exception ends
    the loop. *)
Fixpoint mapM {A B} (f : A -> outcome B) (l : list A) : outcome (list B) :=
  match l with
  | [] => Ret []
  | x :: r => y <- f x ;; ys <- mapM f r ;; Ret (y :: ys)
  end.

(** [l.filter(f)] for a predicate that may throw. *)
Fixpoint filterM {A} (f : A -> outcome bool) (l : list A) : outcome (list A) :=
  match l with
  | [] => Ret []
  | x :: r =>
      b <- f x ;; ys <- filterM f r ;; Ret (if b then x :: ys else ys)
  end.

(* ================================================================== *)
(** ** The runtime the program runs on *)
(* ================================================================== *)

(** An HTTP response as the program uses it. *)
Record response : Type := {
  ok : bool;
  status : Z;
  text : outcome string;     (* await res.text() *)
  json : outcome jsval       (* await res.json() *)
}.

(** What the program asks of Node, of the libraries it imports and of
    the network.  Every field is one call the source makes. *)
Record env : Type := {
  (* path.resolve(process.cwd(), p), for a string p *)
  resolve_cwd : string -> string;
  (* fs.existsSync(path) *)
  existsSync : string -> bool;
  (* fs.readFileSync(path, "utf8") *)
  readFileSync : string -> outcome string;
  (* fs.readFileSync(0, "utf8"): the whole of standard input *)
  readStdin : outcome string;
  (* JSON.parse(text) *)
  JSON_parse : string -> outcome jsval;
  (* JSON.stringify(value, null, 2) on an array *)
  JSON_stringify : jsval -> string;
  (* parse(content, {columns: true, skip_empty_lines: true}) of csv-parse *)
  parseCSV : string -> outcome (list jsval);
  (* Math.random().toString(36).substring(2, 11) *)
  random_token : string;
  (* Date.now() *)
  now : Z;
  (* await fetch(url, {method: "POST", ...}) for the given body *)
  fetch_post : string -> jsval -> outcome response;
  (* await fetch(url) *)
  fetch_get : jsval -> outcome response;
  (* new WebSocket(url): the constructor may reject the URL *)
  ws_new : string -> outcome unit
}.

(** [path.resolve(process.cwd(), input)]: Node throws a TypeError when an
    argument is not a string. *)
Definition path_resolve (E : env) (input : jsval) : outcome string :=
  match input with
  | VStr s => Ret (resolve_cwd E s)
  | _ =>
      Throw (Exn TypeError
        "The paths[1] argument must be of type string")
  end.

(* ================================================================== *)
(** ** lib/utils.js *)
(* ================================================================== *)

Module Utils.

(** detectFormat(filePath, content); [None] is an absent path. *)
Definition detectFormat (filePath : option string) (content : string)
  : string :=
  let ends suffix :=
    match filePath with
    | Some p => Str.endsWith p suffix
    | None => false
    end in
  if ends ".json" then "json"
  else if ends ".csv" then "csv"
  else if ends ".txt" then "txt"
  else if Str.startsWith (Str.trim content) "[" then "json"
  else if Str.includes content "," then "csv"
  else "txt".

(** [p.replace(re, empty)] for the pattern
    [/^(https?|socks[45]):\/\//i]: one match at the start of the string,
    the alternatives in the order the pattern tries them. *)
Definition strip_scheme (s : string) : string :=
  match Str.strip_prefix_ci "https://" s with
  | Some r => r
  | None =>
  match Str.strip_prefix_ci "http://" s with
  | Some r => r
  | None =>
  match Str.strip_prefix_ci "socks4://" s with
  | Some r => r
  | None =>
  match Str.strip_prefix_ci "socks5://" s with
  | Some r => r
  | None => s
  end end end end.

Definition normalizeProxy (p : jsval) : jsval :=
  if negb (JS.truthy p) then VNull
  else
    match p with
    | VStr s => VStr (Str.trim (strip_scheme s))
    | _ =>
        let host := JS.get' p "host" in
        let port := JS.get' p "port" in
        if (JS.truthy host && JS.truthy port)%bool then
          let base := JS.to_string host ++ ":" ++ JS.to_string port in
          let username := JS.get' p "username" in
          let password := JS.get' p "password" in
          if (JS.truthy username && JS.truthy password)%bool
          then VStr (JS.to_string username ++ ":" ++
                     JS.to_string password ++ "@" ++ base)
          else VStr base
        else VNull
    end.

(** [l.map(normalizeProxy).filter(Boolean)] *)
Definition normalize_all (l : list jsval) : list jsval :=
  filter JS.truthy (map normalizeProxy l).

(** [s.split(/\r?\n/).filter(Boolean).map(normalizeProxy)] *)
Definition normalize_lines (s : string) : list jsval :=
  map (fun l => normalizeProxy (VStr l))
      (filter (fun l => negb (Str.is_empty l)) (Str.split_lines s)).

Definition parse_json (E : env) (content : string) : outcome (list jsval) :=
  try_catch
    (j <- JSON_parse E content ;;
     match j with
     | VArr l => Ret (normalize_all l)
     | _ =>
         ps <- JS.get j "proxies" ;;
         match ps with
         | VArr l => Ret (normalize_all l)
         | _ => Throw (Exn Error "Invalid JSON proxy format")
         end
     end)
    (fun err => Throw (Exn Error ("Failed to parse JSON: " ++ message err))).

Definition parse_csv (E : env) (content : string) : outcome (list jsval) :=
  try_catch
    (records <- parseCSV E content ;; Ret (normalize_all records))
    (fun err => Throw (Exn Error ("Failed to parse CSV: " ++ message err))).

(** The part of parseProxies after the array and stdin cases. *)
Definition parse_file (E : env) (input : jsval) : outcome (list jsval) :=
  absPath <- path_resolve E input ;;
  if negb (existsSync E absPath)
  then Throw (Exn Error ("File not found: " ++ JS.to_string input))
  else
    raw <- readFileSync E absPath ;;
    let content := Str.trim raw in
    if Str.is_empty content
    then Throw (Exn Error ("Empty file: " ++ JS.to_string input))
    else
      let format :=
        detectFormat
          (match input with VStr s => Some s | _ => None end) content in
      if String.eqb format "json" then parse_json E content
      else if String.eqb format "csv" then parse_csv E content
      else Ret (normalize_lines content).

Definition parseProxies (E : env) (input : jsval) : outcome (list jsval) :=
  match input with
  | VArr l => Ret (normalize_all l)
  | _ =>
      if negb (JS.truthy input) then
        r <- try_catch
               (raw <- readStdin E ;;
                let stdin := Str.trim raw in
                if negb (Str.is_empty stdin)
                then Ret (Some (normalize_lines stdin))
                else Ret None)
               (fun _ =>
                  Throw (Exn Error "No input found (file or stdin).")) ;;
        match r with
        | Some tokens => Ret tokens
        | None => parse_file E input
        end
      else parse_file E input
  end.

Definition nl : string := String "010" EmptyString.

(** The callback of the [simple] projection. *)
Definition simple_line (p : jsval) : outcome string :=
  match p with
  | VStr s => Ret s
  | _ =>
      proxy <- JS.get p "proxy" ;;
      let auth :=
        if JS.truthy (JS.get_opt proxy "hasAuth")
        then JS.to_string (JS.get' proxy "username") ++ ":" ++
             JS.to_string (JS.get' proxy "password") ++ "@"
        else EmptyString in
      Ret (auth ++ JS.to_string (JS.get_opt proxy "host") ++ ":" ++
           JS.to_string (JS.get_opt proxy "port"))
  end.

Definition yaml_block (p : jsval) : outcome string :=
  proxy <- JS.get p "proxy" ;;
  host <- JS.get proxy "host" ;;
  port <- JS.get proxy "port" ;;
  Ret (Str.join nl
    [ "- host: " ++ JS.to_string host;
      "  port: " ++ JS.to_string port;
      "  status: " ++ JS.to_string (JS.get' p "status");
      "  country: " ++ JS.to_string (JS.get' p "country");
      "  isp: " ++ JS.to_string (JS.get' p "isp");
      "  responseTime: " ++ JS.to_string (JS.get' p "responseTime") ]).

Definition txt_line (p : jsval) : outcome string :=
  proxy <- JS.get p "proxy" ;;
  host <- JS.get proxy "host" ;;
  port <- JS.get proxy "port" ;;
  Ret (JS.to_string host ++ ":" ++ JS.to_string port ++ " (" ++
       JS.to_string (JS.get' p "country") ++ ", " ++
       JS.to_string (JS.get' p "responseTime") ++ ")").

Definition formatOutput (E : env) (proxies : jsval) (format : string)
    (simple : bool) : outcome string :=
  match proxies with
  | VArr l =>
      if simple then
        lines <- mapM simple_line l ;;
        if String.eqb format "json"
        then Ret (JSON_stringify E (VArr (map VStr lines)))
        else if String.eqb format "yaml" then Ret (Str.join nl lines)
        else if String.eqb format "txt" then Ret (Str.join nl lines)
        else Ret (Str.join nl lines)
      else if String.eqb format "json" then Ret (JSON_stringify E proxies)
      else if String.eqb format "yaml" then
        blocks <- mapM yaml_block l ;; Ret (Str.join nl blocks)
      else if String.eqb format "txt" then
        lines <- mapM txt_line l ;; Ret (Str.join nl lines)
      else Throw (Exn Error ("Unsupported format: " ++ format))
  | _ => Throw (Exn Error "Invalid proxy data (not array)")
  end.

End Utils.

(* ================================================================== *)
(** ** Effects of [check]: a trace of what happens, in order *)
(* ================================================================== *)

(** The observable steps of one call of [check].  [await fetch(...)] is
    two steps: the request is issued, and the function resumes once the
    response has arrived.  A rejected [fetch] has no second step. *)
Inductive event : Type :=
| EvSubmitRequest (url bearer : string) (body : jsval)
| EvSubmitResponse
| EvWsOpen (url : string)          (* new WebSocket(url) *)
| EvWsOn (name : string)           (* ws.on(name, handler) *)
| EvResultRequest (url : jsval)
| EvResultResponse
| EvWsClose.                       (* ws.close() *)

(** A computation of the async function: the steps it took and how it
    ended. *)
Definition io (A : Type) : Type := (list event * outcome A)%type.

Definition io_bind {A B} (m : io A) (k : A -> io B) : io B :=
  match m with
  | (t, Ret a) => let '(t', r) := k a in ((t ++ t')%list, r)
  | (t, Throw e) => (t, Throw e)
  end.

Definition lift {A} (m : outcome A) : io A := ([], m).

Definition emit (e : event) : io unit := ([e], Ret tt).

(** [try { m } finally { f }], for an [f] that does not throw. *)
Definition try_finally {A} (m : io A) (f : list event) : io A :=
  let '(t, r) := m in ((t ++ f)%list, r).

Notation "x <~ m ;; k" := (io_bind m (fun x => k))
  (at level 61, m at next level, right associativity) : js_scope.

(* ================================================================== *)
(** ** lib/sdk.js *)
(* ================================================================== *)

Module Sdk.

Definition API_BASE : string := "https://api.clearproxy.io".

Record ClearProxy : Type := { apiKey : string; baseURL : string }.

Definition constructor (key : string) : outcome ClearProxy :=
  if Str.is_empty key then Throw (Exn Error "API key is required")
  else Ret {| apiKey := key; baseURL := API_BASE |}.

(** The options of [check], typed as its documentation types them;
    [None] is an absent option.  [onProgress] tells whether a callback
    was given: the callback runs from the event loop, inside a handler
    that catches everything, and cannot change what [check] does. *)
Record options : Type := {
  region : option string;
  timeout : option Z;
  type : option string;
  customUrls : option (list jsval);
  jobId : option string;
  onProgress : bool
}.

Definition no_options : options :=
  {| region := None; timeout := None; type := None; customUrls := None;
     jobId := None; onProgress := false |}.

Definition default {A} (d : A) (o : option A) : A :=
  match o with Some a => a | None => d end.

(** Truthiness of an optional string. *)
Definition given (o : option string) : bool :=
  match o with Some s => negb (Str.is_empty s) | None => false end.

(** [x || undefined] in the request body. *)
Definition or_undefined (o : option string) : jsval :=
  match o with
  | Some s => if Str.is_empty s then VUndefined else VStr s
  | None => VUndefined
  end.

Definition allowedTypes : list string := ["http"; "socks4"; "socks5"].

Definition validate_type (t : string) : outcome unit :=
  if existsb (String.eqb t) allowedTypes then Ret tt
  else Throw (Exn Error ("Invalid type '" ++ t ++ "'. Allowed: " ++
                         Str.join ", " allowedTypes)).

(** The [forEach] over customUrls, from index [idx] on. *)
Fixpoint validate_customUrls (idx : Z) (l : list jsval) : outcome unit :=
  match l with
  | [] => Ret tt
  | urlConfig :: r =>
      url <- JS.get urlConfig "url" ;;
      if negb (JS.truthy url) then
        Throw (Exn Error ("Custom URL at index " ++ Str.of_Z idx ++
                          " is missing 'url' field"))
      else if negb (JS.is_string url) then
        Throw (Exn Error ("Custom URL at index " ++ Str.of_Z idx ++
                          ": 'url' must be a string"))
      else validate_customUrls (idx + 1) r
  end.

(** Lines 95-110 of [check]: from the input to the list of tokens. *)
Definition ingest (E : env) (input : jsval) : outcome (list jsval) :=
  proxies <-
    match input with
    | VStr _ => try_catch (Utils.parseProxies E input) (fun _ => Ret [input])
    | VArr _ => Utils.parseProxies E input
    | _ =>
        Throw (Exn Error
          "Input must be a file path, proxy string, or array of proxies")
    end ;;
  if (Z.of_nat (List.length proxies) =? 0)
  then Throw (Exn Error "No proxies found in input")
  else Ret proxies.

(** [resultData.proxies?.filter(p => p.status === s) || []] *)
Definition filter_status (resultData : jsval) (s : string) : outcome jsval :=
  ps <- JS.get resultData "proxies" ;;
  if JS.nullish ps then Ret (VArr [])
  else
    match ps with
    | VArr l =>
        kept <- filterM (fun p => st <- JS.get p "status" ;;
                                  Ret (JS.strict_eq_str st s)) l ;;
        Ret (VArr kept)
    | _ =>
        Throw (Exn TypeError "resultData.proxies?.filter is not a function")
    end.

(** Lines 166-178: the object [check] returns, built from the result
    payload and from the submission response. *)
Definition aggregate (resultData data : jsval) : outcome jsval :=
  cuv_result <- JS.get resultData "custom_url_validation" ;;
  custom_url_validation <-
    (if JS.truthy cuv_result then Ret cuv_result
     else cuv_data <- JS.get data "custom_url_validation" ;;
          Ret (JS.or cuv_data VNull)) ;;
  summary <- JS.get resultData "summary" ;;
  metadata <- JS.get resultData "metadata" ;;
  proxies <- JS.get resultData "proxies" ;;
  working <- filter_status resultData "working" ;;
  failed <- filter_status resultData "failed" ;;
  Ret (VObj [ ("summary", JS.or summary (VObj []));
              ("metadata", JS.or metadata (VObj []));
              ("proxies", JS.or proxies (VArr []));
              ("working", working);
              ("failed", failed);
              ("custom_url_validation", custom_url_validation) ]).

(** The [try] block of [check], lines 149-178. *)
Definition fetch_and_aggregate (E : env) (res : response) : io jsval :=
  _ <~ lift (if negb (ok res) then
               t <- text res ;;
               Throw (Exn Error ("API Error (" ++ Str.of_Z (status res) ++
                                 "): " ++ t))
             else Ret tt) ;;
  data <~ lift (json res) ;;
  result_url <~ lift (JS.get data "result_url") ;;
  _ <~ lift (if negb (JS.truthy result_url) then
               Throw (Exn Error
                 "Unexpected API response: missing 'result_url'")
             else Ret tt) ;;
  _ <~ emit (EvResultRequest result_url) ;;
  resultRes <~ lift (fetch_get E result_url) ;;
  _ <~ emit EvResultResponse ;;
  _ <~ lift (if negb (ok resultRes) then
               Throw (Exn Error ("Failed to fetch result: " ++
                                 Str.of_Z (status resultRes)))
             else Ret tt) ;;
  resultData <~ lift (json resultRes) ;;
  lift (aggregate resultData data).

(** Lines 128-146, [Start WebSocket if onProgress is provided]: the
    result tells whether [ws] is set. *)
Definition open_progress (E : env) (this : ClearProxy) (o : options)
    (effectiveJobId : option string) : io bool :=
  if (onProgress o && given effectiveJobId)%bool then
    let wsURL :=
      Str.replace_first (baseURL this) "http" "ws" ++
      "/ws?jobId=" ++ default EmptyString effectiveJobId in
    _ <~ lift (ws_new E wsURL) ;;
    _ <~ emit (EvWsOpen wsURL) ;;
    _ <~ emit (EvWsOn "message") ;;
    _ <~ emit (EvWsOn "error") ;;
    lift (Ret true)
  else lift (Ret false).

Definition check (E : env) (this : ClearProxy) (input : jsval)
    (o : options) : io jsval :=
  let timeout := default 4000 (timeout o) in
  let type := default "http" (type o) in
  let customUrls := default [] (customUrls o) in
  let effectiveJobId :=
    if (onProgress o && negb (given (jobId o)))%bool
    then Some ("sdk_" ++ random_token E ++ "_" ++ Str.of_Z (now E))
    else jobId o in
  _ <~ lift (validate_type type) ;;
  _ <~ lift (if (0 <? Z.of_nat (List.length customUrls))
             then validate_customUrls 0 customUrls else Ret tt) ;;
  proxies <~ lift (ingest E input) ;;
  let url := baseURL this ++ "/check" in
  let body :=
    VObj [ ("proxies", VArr proxies);
           ("region", or_undefined (region o));
           ("timeout", VNum timeout);
           ("type", VStr type);
           ("customUrls",
             if (0 <? Z.of_nat (List.length customUrls))
             then VArr customUrls else VUndefined);
           ("jobId", or_undefined effectiveJobId) ] in
  _ <~ emit (EvSubmitRequest url (apiKey this) body) ;;
  res <~ lift (fetch_post E url body) ;;
  _ <~ emit EvSubmitResponse ;;
  ws <~ open_progress E this o effectiveJobId ;;
  try_finally (fetch_and_aggregate E res)
              (if ws : bool then [EvWsClose] else []).

(** *** getCustomUrlSummary

    Addition, comparison with zero and the formatting of the percentage
    are those of JavaScript numbers; they are parameters here, and the
    properties below use them on integers only. *)
Section Summary.

(** [a + b] *)
Variable js_add : jsval -> jsval -> jsval.
(** [a > 0] *)
Variable js_gt_zero : jsval -> bool.
(** [((a / b) * 100).toFixed(2)] *)
Variable percent_toFixed2 : jsval -> jsval -> string.

(** [cuv.per_url_summary || cuv.results ||
     (Array.isArray(cuv) ? cuv : [])], for a truthy [cuv]. *)
Definition perUrlResults (cuv : jsval) : jsval :=
  JS.or (JS.get' cuv "per_url_summary")
    (JS.or (JS.get' cuv "results")
       (if JS.isArray cuv then cuv else VArr [])).

(** [l.reduce((sum, r) => sum + (r[k] || 0), acc)] *)
Fixpoint reduce_count (k : string) (l : list jsval) (acc : jsval)
  : outcome jsval :=
  match l with
  | [] => Ret acc
  | r :: rest =>
      c <- JS.get r k ;;
      reduce_count k rest (js_add acc (JS.or c (VNum 0)))
  end.

Definition project_entry (r : jsval) : outcome jsval :=
  url <- JS.get r "url" ;;
  success_count <- JS.get r "success_count" ;;
  failed_count <- JS.get r "failed_count" ;;
  success_rate <- JS.get r "success_rate" ;;
  Ret (VObj [ ("url", url); ("success_count", success_count);
              ("failed_count", failed_count);
              ("success_rate", success_rate) ]).

Definition getCustomUrlSummary (result : jsval) : outcome jsval :=
  cuv <- JS.get result "custom_url_validation" ;;
  if negb (JS.truthy cuv) then Ret VNull
  else
    match perUrlResults cuv with
    | VArr l =>
        totalSuccess <- reduce_count "success_count" l (VNum 0) ;;
        totalFailed <- reduce_count "failed_count" l (VNum 0) ;;
        let totalTested := js_add totalSuccess totalFailed in
        per_url <- mapM project_entry l ;;
        Ret (VObj
          [ ("total_urls", VNum (Z.of_nat (List.length l)));
            ("total_proxies_tested", totalTested);
            ("total_success", totalSuccess);
            ("total_failed", totalFailed);
            ("overall_success_rate",
              VStr (if js_gt_zero totalTested
                    then percent_toFixed2 totalSuccess totalTested ++ "%"
                    else "0.00%"));
            ("per_url", VArr per_url) ])
    | _ => Throw (Exn TypeError "perUrlResults.reduce is not a function")
    end.

End Summary.

(** *** filterByCustomUrl *)

(** [l.find(r => r.url === url)]: the first entry whose url is the given
    string, [undefined] when there is none. *)
Fixpoint find_by_url (url : string) (l : list jsval) : outcome jsval :=
  match l with
  | [] => Ret VUndefined
  | r :: rest =>
      u <- JS.get r "url" ;;
      if JS.strict_eq_str u url then Ret r else find_by_url url rest
  end.

Definition filterByCustomUrl (result : jsval) (url : string)
  : outcome jsval :=
  cuv <- JS.get result "custom_url_validation" ;;
  if negb (JS.truthy cuv)
  then Throw (Exn Error "No custom URL validation data available")
  else
    match perUrlResults cuv with
    | VArr l =>
        urlResult <- find_by_url url l ;;
        if negb (JS.truthy urlResult) then
          Throw (Exn Error ("URL '" ++ url ++
                            "' not found in custom validation results"))
        else
          successful <- JS.get urlResult "successful_proxies" ;;
          Ret (JS.or successful (VArr []))
    | _ => Throw (Exn TypeError "perUrlResults.find is not a function")
    end.

(** [export(proxies, format, simple)] *)
Definition export (E : env) (proxies : jsval) (format : string)
    (simple : bool) : outcome string :=
  Utils.formatOutput E proxies format simple.

End Sdk.

(* ================================================================== *)
(** ** bin/clearproxy.js: the action of the [check] command *)
(* ================================================================== *)

(** The two passages of the command line tool that do what [Sdk.check]
    does: reading the input and submitting it.  Printing, the spinner and
    the writing of the result file are left out. *)
Module Cli.

(** Input handling, lines 459-469.  [input] is the positional argument,
    [args] is [process.argv.slice(3)]. *)
Definition ingest (E : env) (input : option string) (args : list string)
  : outcome (list jsval) :=
  let inline :=
    VArr (map VStr (filter (fun a => negb (Str.startsWith a "--")) args)) in
  proxies <-
    match input with
    | Some p =>
        if Str.is_empty p then Utils.parseProxies E inline
        else
          let absPath := resolve_cwd E p in
          if existsSync E absPath then Utils.parseProxies E (VStr absPath)
          else Utils.parseProxies E inline
    | None => Utils.parseProxies E inline
    end ;;
  if (Z.of_nat (List.length proxies) =? 0)
  then Throw (Exn Error
         "No proxies found in input. Provide a file or inline proxies.")
  else Ret proxies.

(** From the job identifier to the result payload, lines 527-577.  The
    result is the pair of the submission response and the payload. *)
Definition submit (E : env) (key : string) (proxies : list jsval)
    (region : option string) (timeout : Z) (type : string)
    (customUrls : list jsval) : io (jsval * jsval) :=
  let jobId := "cli_" ++ random_token E ++ "_" ++ Str.of_Z (now E) in
  (* Start WebSocket for real-time progress *)
  let wsURL :=
    Str.replace_first Sdk.API_BASE "http" "ws" ++ "/ws?jobId=" ++ jobId in
  _ <~ lift (ws_new E wsURL) ;;
  _ <~ emit (EvWsOpen wsURL) ;;
  _ <~ emit (EvWsOn "message") ;;
  _ <~ emit (EvWsOn "error") ;;
  let url := Sdk.API_BASE ++ "/check" in
  let body :=
    VObj [ ("proxies", VArr proxies);
           ("region", Sdk.or_undefined region);
           ("timeout", VNum timeout);
           ("type", VStr (if Str.is_empty type then "http" else type));
           ("customUrls",
             if (0 <? Z.of_nat (List.length customUrls))
             then VArr customUrls else VUndefined);
           ("jobId", VStr jobId) ] in
  _ <~ emit (EvSubmitRequest url key body) ;;
  res <~ lift (fetch_post E url body) ;;
  _ <~ emit EvSubmitResponse ;;
  _ <~ (if negb (ok res) then
          _ <~ emit EvWsClose ;;
          t <~ lift (text res) ;;
          lift (Throw (Exn Error t))
        else lift (Ret tt)) ;;
  data <~ lift (json res) ;;
  _ <~ emit EvWsClose ;;
  result_url <~ lift (JS.get data "result_url") ;;
  _ <~ lift (if negb (JS.truthy result_url) then
               Throw (Exn Error "Unexpected API response: missing result_url")
             else Ret tt) ;;
  _ <~ emit (EvResultRequest result_url) ;;
  resultRes <~ lift (fetch_get E result_url) ;;
  _ <~ emit EvResultResponse ;;
  _ <~ lift (if negb (ok resultRes) then
               Throw (Exn Error ("Failed to fetch result: " ++
                                 Str.of_Z (status resultRes)))
             else Ret tt) ;;
  resultData <~ lift (json resultRes) ;;
  lift (Ret (data, resultData)).

(** The [forEach] over the rules of --custom, from index [idx] on,
    lines 490-494: unlike [Sdk.check] it only asks for a truthy url. *)
Fixpoint validate_rules (idx : Z) (l : list jsval) : outcome unit :=
  match l with
  | [] => Ret tt
  | urlConfig :: r =>
      url <- JS.get urlConfig "url" ;;
      if negb (JS.truthy url) then
        Throw (Exn Error ("Custom URL at index " ++ Str.of_Z idx ++
                          " is missing 'url' field"))
      else validate_rules (idx + 1) r
  end.

(** Parsing the --custom option, lines 471-511, for a non-empty option
    value: a JSON file when the value names an existing .json file, a
    JSON text otherwise. *)
Definition parse_custom (E : env) (custom : string) : outcome (list jsval) :=
  try_catch
    (let customPath := resolve_cwd E custom in
     parsed <-
       (if (existsSync E customPath && Str.endsWith customPath ".json")%bool
        then fileContent <- readFileSync E customPath ;;
             JSON_parse E fileContent
        else JSON_parse E custom) ;;
     match parsed with
     | VArr customUrls =>
         _ <- validate_rules 0 customUrls ;; Ret customUrls
     | _ => Throw (Exn Error "--custom must be a JSON array")
     end)
    (fun err =>
       if Str.includes (message err) "missing" then Throw err
       else Throw (Exn Error ("Failed to parse --custom: " ++ message err))).

End Cli.

(* ================================================================== *)
(** ** A sample world *)
(* ================================================================== *)

(** One concrete runtime, used to run the definitions on examples: the
    working directory holds a truncated [proxies.json] and nothing else,
    standard input is empty, and the service answers a submission with a
    result location whose payload has one working and one failed proxy. *)
Module Sample.

Definition dq : string := String "034" EmptyString.

Definition hex_digit (n : N) : ascii :=
  if N.ltb n 10 then ascii_of_N (48 + n) else ascii_of_N (87 + n).

(** QuoteJSONString on one code unit below U+0100. *)
Definition escape (c : ascii) : string :=
  let n := Str.code c in
  if N.eqb n 34 then "\" ++ dq
  else if N.eqb n 92 then "\\"
  else if N.eqb n 8 then "\b"
  else if N.eqb n 12 then "\f"
  else if N.eqb n 10 then "\n"
  else if N.eqb n 13 then "\r"
  else if N.eqb n 9 then "\t"
  else if N.ltb n 32 then
    "\u00" ++ String (hex_digit (N.div n 16))
                (String (hex_digit (N.modulo n 16)) EmptyString)
  else String c EmptyString.

Definition quote (s : string) : string :=
  dq ++ String.concat EmptyString (map escape (list_ascii_of_string s)) ++ dq.

(** JSON.stringify(v, null, 2) at the given indentation; [None] is the
    [undefined] it returns for an [undefined] value. *)
Fixpoint stringify (indent : string) (v : jsval) : option string :=
  let inner := indent ++ "  " in
  let wrap (l r : string) (items : list string) : string :=
    match items with
    | [] => l ++ r
    | _ => l ++ Utils.nl ++ inner ++
           Str.join ("," ++ Utils.nl ++ inner) items ++
           Utils.nl ++ indent ++ r
    end in
  match v with
  | VUndefined => None
  | VNull => Some "null"
  | VBool true => Some "true"
  | VBool false => Some "false"
  | VNum n => Some (Str.of_Z n)
  | VStr s => Some (quote s)
  | VArr l =>
      Some (wrap "[" "]"
        ((fix items (l : list jsval) : list string :=
            match l with
            | [] => []
            | x :: r =>
                match stringify inner x with
                | Some t => t
                | None => "null"
                end :: items r
            end) l))
  | VObj props =>
      Some (wrap "{" "}"
        ((fix members (ps : list (string * jsval)) : list string :=
            match ps with
            | [] => []
            | (k, x) :: r =>
                match stringify inner x with
                | Some t => (quote k ++ ": " ++ t) :: members r
                | None => members r
                end
            end) props))
  end.

Definition verdict (host : string) (port : Z) (st : string) : jsval :=
  VObj [ ("proxy", VObj [("host", VStr host); ("port", VNum port)]);
         ("status", VStr st) ].

Definition payload : jsval :=
  VObj [ ("proxies", VArr [ verdict "1.1.1.1" 8080 "working";
                            verdict "bad-entry" 0 "failed" ]) ].

Definition result_url : string := "https://api.clearproxy.io/result/1".

Definition world : env :=
  {| resolve_cwd := fun p =>
       if Str.startsWith p "/" then p else "/work/" ++ p;
     existsSync := fun p => String.eqb p "/work/proxies.json";
     readFileSync := fun p =>
       if String.eqb p "/work/proxies.json" then Ret "{"
       else Throw (Exn SystemError "ENOENT: no such file or directory");
     readStdin := Ret EmptyString;
     JSON_parse := fun s =>
       if String.eqb s "[]" then Ret (VArr [])
       else Throw (Exn SyntaxError "Unexpected end of JSON input");
     JSON_stringify := fun v =>
       match stringify EmptyString v with
       | Some t => t
       | None => "undefined"
       end;
     parseCSV := fun _ => Ret [];
     random_token := "k3j5x9q2a";
     now := 1700000000000;
     fetch_post := fun _ _ =>
       Ret {| ok := true; status := 200; text := Ret EmptyString;
              json := Ret (VObj [("result_url", VStr result_url)]) |};
     fetch_get := fun _ =>
       Ret {| ok := true; status := 200; text := Ret EmptyString;
              json := Ret payload |};
     ws_new := fun _ => Ret tt |}.

(** The same world with another network. *)
Definition with_network (post : string -> jsval -> outcome response)
    (get : jsval -> outcome response) : env :=
  {| resolve_cwd := resolve_cwd world;
     existsSync := existsSync world;
     readFileSync := readFileSync world;
     readStdin := readStdin world;
     JSON_parse := JSON_parse world;
     JSON_stringify := JSON_stringify world;
     parseCSV := parseCSV world;
     random_token := random_token world;
     now := now world;
     fetch_post := post;
     fetch_get := get;
     ws_new := ws_new world |}.

(** The service refuses the submission. *)
Definition world_remote_error : env :=
  with_network
    (fun _ _ => Ret {| ok := false; status := 500; text := Ret "boom";
                       json := Throw (Exn SyntaxError "Unexpected token") |})
    (fetch_get world).

(** The service accepts the submission and names no result location. *)
Definition world_no_result_url : env :=
  with_network
    (fun _ _ => Ret {| ok := true; status := 200; text := Ret EmptyString;
                       json := Ret (VObj []) |})
    (fetch_get world).

(** The connection breaks while the result is fetched. *)
Definition world_fetch_breaks : env :=
  with_network (fetch_post world)
    (fun _ => Throw (Exn SystemError "socket hang up")).

(** The submission itself never gets a response. *)
Definition world_offline : env :=
  with_network (fun _ _ => Throw (Exn SystemError "getaddrinfo ENOTFOUND"))
    (fetch_get world).

Definition client : Sdk.ClearProxy :=
  {| Sdk.apiKey := "clearpx_key"; Sdk.baseURL := Sdk.API_BASE |}.

(** check(input, {onProgress: callback}) *)
Definition with_progress : Sdk.options :=
  {| Sdk.region := None; Sdk.timeout := None; Sdk.type := None;
     Sdk.customUrls := None; Sdk.jobId := None; Sdk.onProgress := true |}.

Definition two_proxies : jsval :=
  VArr [VStr "1.1.1.1:8080"; VStr "bad-entry"].

Definition ws_url : string :=
  "wss://api.clearproxy.io/ws?jobId=sdk_k3j5x9q2a_1700000000000".

Definition submit_request : event :=
  EvSubmitRequest "https://api.clearproxy.io/check" "clearpx_key"
    (VObj [ ("proxies", two_proxies); ("region", VUndefined);
            ("timeout", VNum 4000); ("type", VStr "http");
            ("customUrls", VUndefined);
            ("jobId", VStr "sdk_k3j5x9q2a_1700000000000") ]).

(** Integer instances of the number operations of getCustomUrlSummary. *)
Definition add (a b : jsval) : jsval :=
  match a, b with
  | VNum x, VNum y => VNum (x + y)
  | _, _ => VStr (JS.to_string a ++ JS.to_string b)
  end.

Definition gt_zero (a : jsval) : bool :=
  match a with VNum x => 0 <? x | _ => false end.

(** The percentage with two decimals, rounded in exact arithmetic. *)
Definition percent (a b : jsval) : string :=
  match a, b with
  | VNum x, VNum y =>
      let h := (x * 10000 + y / 2) / y in
      let cents := h mod 100 in
      Str.of_Z (h / 100) ++ "." ++
      (if cents <? 10 then "0" else EmptyString) ++ Str.of_Z cents
  | _, _ => "NaN"
  end.

End Sample.

(* ================================================================== *)
(** ** Vocabulary of the properties *)
(* ================================================================== *)

Module Props.

Import Sdk.

(** *** Tokens *)

(** The scheme prefixes the normalizer knows, in lower case. *)
Definition schemes : list string :=
  ["http://"; "https://"; "socks4://"; "socks5://"].

Fixpoint to_lower (s : string) : string :=
  match s with
  | String c r => String (Str.lower c) (to_lower r)
  | EmptyString => EmptyString
  end.

(** [s] starts with one of the scheme prefixes, in any letter case. *)
Definition carries_scheme (s : string) : bool :=
  existsb
    (fun p => match Str.strip_prefix_ci p s with
              | Some _ => true
              | None => false
              end) schemes.

(** *** Rendering and ingestion errors, by the message the code gives
    them *)

Definition supported (format : string) : bool :=
  existsb (String.eqb format) ["json"; "txt"; "yaml"].

(** The error formatOutput throws for a format it does not know. *)
Definition UnsupportedFormatError (format : string) : exn :=
  Exn Error ("Unsupported format: " ++ format).

Definition is_TypeError (e : exn) : Prop :=
  exists m, e = Exn TypeError m.

(** The errors of ingestion, by the message the code gives them. *)
Definition EmptyInputError : exn := Exn Error "No proxies found in input".

Definition NotFoundError_stdin : exn :=
  Exn Error "No input found (file or stdin).".

Definition ParseError_json (cause : exn) : exn :=
  Exn Error ("Failed to parse JSON: " ++ message cause).

(** *** Traces of [check] *)

Definition is_open (e : event) : bool :=
  match e with EvWsOpen _ => true | _ => false end.

Definition is_close (e : event) : bool :=
  match e with EvWsClose => true | _ => false end.

Definition is_submit (e : event) : bool :=
  match e with EvSubmitRequest _ _ _ => true | _ => false end.

(** A step of the result fetch. *)
Definition is_fetch_step (e : event) : bool :=
  match e with EvResultRequest _ | EvResultResponse => true | _ => false end.

Definition opens (t : list event) : nat := List.length (filter is_open t).
Definition closes (t : list event) : nat := List.length (filter is_close t).

(** The traces [check] can leave, by how far it got. *)
Inductive check_trace : list event -> Prop :=
| ct_refused : check_trace []
| ct_no_response req :
    is_submit req = true -> check_trace [req]
| ct_plain req body :
    is_submit req = true -> forallb is_fetch_step body = true ->
    check_trace (req :: EvSubmitResponse :: body)
| ct_progress req u body :
    is_submit req = true -> forallb is_fetch_step body = true ->
    check_trace (req :: EvSubmitResponse :: EvWsOpen u ::
                 EvWsOn "message" :: EvWsOn "error" ::
                 (body ++ [EvWsClose])%list).

(** *** Verdicts and validation entries *)

(** [p.status === s] *)
Definition has_status (s : string) (p : jsval) : bool :=
  JS.strict_eq_str (JS.get' p "status") s.

(** The verdict list of a result payload: its [proxies] array, none when
    the property is absent; [None] when the property holds something
    else. *)
Definition verdicts_of (resultData : jsval) : option (list jsval) :=
  match JS.get' resultData "proxies" with
  | VArr l => Some l
  | VUndefined | VNull => Some []
  | _ => None
  end.

Definition present (v : jsval) : bool := negb (JS.nullish v).

(** A record carries a property when it holds a value for it, one that
    is neither undefined nor null. *)
Definition carries (props : list (string * jsval)) (k : string) : bool :=
  present (JS.lookup k props).

(** A counter of a validation entry: a number, or absent. *)
Definition is_count (v : jsval) : bool :=
  match v with VNum _ | VUndefined | VNull => true | _ => false end.

Definition count_value (v : jsval) : Z :=
  match v with VNum n => n | _ => 0 end.

Definition entry_ok (r : jsval) : bool :=
  (present r && is_count (JS.get' r "success_count")
   && is_count (JS.get' r "failed_count"))%bool.

Fixpoint total (k : string) (l : list jsval) : Z :=
  match l with
  | [] => 0
  | r :: rest => count_value (JS.get' r k) + total k rest
  end.

End Props.

(* ================================================================== *)
(** ** Further vocabulary *)
(* ================================================================== *)

Module MoreProps.

Import Sdk Props.

(** *** Strings and tokens *)

Definition LF : ascii := "010".
Definition CR : ascii := "013".

(** No line break inside the string. *)
Fixpoint no_break (s : string) : bool :=
  match s with
  | EmptyString => true
  | String c r =>
      (negb (Ascii.eqb c LF) && negb (Ascii.eqb c CR) && no_break r)%bool
  end.

(** A line of a proxy list: not empty, no line break. *)
Definition is_line (s : string) : bool :=
  (negb (Str.is_empty s) && no_break s)%bool.

(** A token as the service expects it: a non-empty string. *)
Definition is_token (v : jsval) : bool :=
  match v with VStr s => negb (Str.is_empty s) | _ => false end.

(** A token without surrounding whitespace. *)
Definition is_trimmed_token (v : jsval) : bool :=
  match v with
  | VStr s => (negb (Str.is_empty s) && String.eqb (Str.trim s) s)%bool
  | _ => false
  end.

(** *** The request of [check] *)

(** The job identifier [check] works with. *)
Definition effective_job_id (E : env) (o : options) : option string :=
  if (onProgress o && negb (given (jobId o)))%bool
  then Some ("sdk_" ++ random_token E ++ "_" ++ Str.of_Z (now E))
  else jobId o.

Definition request_url (this : ClearProxy) : string :=
  baseURL this ++ "/check".

Definition request_body (E : env) (o : options) (proxies : list jsval)
  : jsval :=
  VObj [ ("proxies", VArr proxies);
         ("region", or_undefined (region o));
         ("timeout", VNum (default 4000 (timeout o)));
         ("type", VStr (default "http" (type o)));
         ("customUrls",
           if (0 <? Z.of_nat (List.length (default [] (customUrls o))))
           then VArr (default [] (customUrls o)) else VUndefined);
         ("jobId", or_undefined (effective_job_id E o)) ].

Definition progress_url (this : ClearProxy) (id : string) : string :=
  Str.replace_first (baseURL this) "http" "ws" ++ "/ws?jobId=" ++ id.

(** The steps that open the progress subscription. *)
Definition progress_steps (this : ClearProxy) (id : string) : list event :=
  [EvWsOpen (progress_url this id); EvWsOn "message"; EvWsOn "error"].

(** The checks [check] makes on its options. *)
Definition validate_options (o : options) : outcome unit :=
  bind (validate_type (default "http" (type o)))
    (fun _ =>
       if (0 <? Z.of_nat (List.length (default [] (customUrls o))))
       then validate_customUrls 0 (default [] (customUrls o))
       else Ret tt).

Definition is_result_request (e : event) : bool :=
  match e with EvResultRequest _ => true | _ => false end.

Definition count (f : event -> bool) (t : list event) : nat :=
  List.length (filter f t).

(** The steps of a trace before its first result request. *)
Fixpoint before_result (t : list event) : list event :=
  match t with
  | [] => []
  | e :: r => if is_result_request e then [] else e :: before_result r
  end.

(** A custom URL rule that passes the validation of [check]. *)
Definition rule_ok (r : jsval) : bool :=
  (present r && JS.truthy (JS.get' r "url")
   && JS.is_string (JS.get' r "url"))%bool.

(** *** Validation entries *)

(** [r.url === url] *)
Definition has_url (url : string) (r : jsval) : bool :=
  JS.strict_eq_str (JS.get' r "url") url.

Definition NoValidationDataError : exn :=
  Exn Error "No custom URL validation data available".

Definition UrlNotFoundError (url : string) : exn :=
  Exn Error ("URL '" ++ url ++ "' not found in custom validation results").

(** The projection getCustomUrlSummary makes of one entry. *)
Definition projection (r : jsval) : jsval :=
  VObj [ ("url", JS.get' r "url");
         ("success_count", JS.get' r "success_count");
         ("failed_count", JS.get' r "failed_count");
         ("success_rate", JS.get' r "success_rate") ].

(** *** Verdicts *)

(** A verdict whose proxy record says the truth about its credentials. *)
Definition verdict_ok (p : jsval) : bool :=
  let proxy := JS.get' p "proxy" in
  (negb (JS.is_string p) && present p && present proxy
   && JS.truthy (JS.get' proxy "host") && JS.truthy (JS.get' proxy "port")
   && Bool.eqb (JS.truthy (JS.get' proxy "hasAuth"))
        (JS.truthy (JS.get' proxy "username")
         && JS.truthy (JS.get' proxy "password")))%bool.

(** A verdict that can be rendered: a record with a proxy record. *)
Definition renderable (p : jsval) : bool :=
  (present p && present (JS.get' p "proxy"))%bool.

(** A rule the command line tool accepts: a record with a truthy url. *)
Definition cli_rule_ok (r : jsval) : bool :=
  (present r && JS.truthy (JS.get' r "url"))%bool.


End MoreProps.

(** Further sample worlds. *)
Module MoreSample.

(** The world [E] with one more file, of the given absolute path and
    content. *)
Definition with_file (path content : string) (E : env) : env :=
  {| resolve_cwd := resolve_cwd E;
     existsSync := fun p => (String.eqb p path || existsSync E p)%bool;
     readFileSync := fun p =>
       if String.eqb p path then Ret content else readFileSync E p;
     readStdin := readStdin E;
     JSON_parse := JSON_parse E;
     JSON_stringify := JSON_stringify E;
     parseCSV := parseCSV E;
     random_token := random_token E;
     now := now E;
     fetch_post := fetch_post E;
     fetch_get := fetch_get E;
     ws_new := ws_new E |}.

Definition list_txt : string :=
  "http://1.1.1.1:8080" ++ Utils.nl ++ "socks5://" ++ Utils.nl ++
  "2.2.2.2:80" ++ Utils.nl.

(** The sample world with a plain-text list of three lines, the second
    of which is a bare scheme. *)
Definition world_with_list : env :=
  with_file "/work/list.txt" list_txt Sample.world.

(** The world [E] whose JSON.parse also reads the text [text], as the
    value [v]. *)
Definition with_parser (text : string) (v : jsval) (E : env) : env :=
  {| resolve_cwd := resolve_cwd E;
     existsSync := existsSync E;
     readFileSync := readFileSync E;
     readStdin := readStdin E;
     JSON_parse := fun s => if String.eqb s text then Ret v else JSON_parse E s;
     JSON_stringify := JSON_stringify E;
     parseCSV := parseCSV E;
     random_token := random_token E;
     now := now E;
     fetch_post := fetch_post E;
     fetch_get := fetch_get E;
     ws_new := ws_new E |}.

(** Two validation rules, the second of which names no url. *)
Definition rules : list jsval :=
  [ VObj [("url", VStr "https://discord.com")];
    VObj [("requiredStatusCodes", VArr [VNum 200])] ].

Definition rules_json : string :=
  "[{" ++ Sample.quote "url" ++ ":" ++ Sample.quote "https://discord.com" ++
  "},{" ++ Sample.quote "requiredStatusCodes" ++ ":[200]}]".

(** The sample world with these rules in the file custom.json. *)
Definition world_with_rules : env :=
  with_file "/work/custom.json" rules_json
    (with_parser rules_json (VArr rules) Sample.world).

(** A validation report with two URLs. *)
Definition report : jsval :=
  VObj [("per_url_summary",
         VArr [ VObj [("url", VStr "https://discord.com");
                      ("success_count", VNum 3); ("failed_count", VNum 1);
                      ("success_rate", VStr "75.00%");
                      ("successful_proxies",
                        VArr [VStr "1.1.1.1:80"; VStr "2.2.2.2:80";
                              VStr "3.3.3.3:80"])];
                VObj [("url", VStr "https://www.google.com");
                      ("success_count", VNum 0); ("failed_count", VNum 4);
                      ("success_rate", VStr "0.00%")] ])].

Definition result_with_report : jsval :=
  VObj [("proxies", VArr []); ("custom_url_validation", report)].

(** check(input, {jobId: "job-7", onProgress: callback}) *)
Definition with_job : Sdk.options :=
  {| Sdk.region := None; Sdk.timeout := None; Sdk.type := None;
     Sdk.customUrls := None; Sdk.jobId := Some "job-7";
     Sdk.onProgress := true |}.

End MoreSample.

(* ================================================================== *)
(** ** The effect monad *)
(* ================================================================== *)

Lemma io_bind_lift {A B} (m : outcome A) (k : A -> io B) :
  io_bind (lift m) k =
  match m with Ret a => k a | Throw e => ([], Throw e) end.
Proof. destruct m; simpl; [destruct (k a)|]; reflexivity. Qed.

Lemma io_bind_emit {B} (e : event) (k : unit -> io B) :
  io_bind (emit e) k = (e :: fst (k tt), snd (k tt)).
Proof. unfold io_bind, emit. destruct (k tt); reflexivity. Qed.

(* ================================================================== *)
(** ** Proxy Normalizer *)
(* ================================================================== *)

Module NormalizerFacts.

Import Utils Props.

Lemma strip_prefix_ci_app pre rest :
  Str.strip_prefix_ci (to_lower pre) (pre ++ rest) = Some rest.
Proof.
  induction pre as [|c pre IH]; simpl; [reflexivity|].
  now rewrite Ascii.eqb_refl.
Qed.

Lemma strip_prefix_ci_extend p s w r :
  Str.strip_prefix_ci p s = Some r ->
  Str.strip_prefix_ci p (s ++ w) = Some (r ++ w).
Proof.
  revert s; induction p as [|a p IH]; intros s H; simpl in *.
  - now inversion H.
  - destruct s as [|c s]; [discriminate|]. simpl.
    destruct (Ascii.eqb (Str.lower c) a); [now apply IH | discriminate].
Qed.

Lemma trimEnd_prefix s : exists w, s = Str.trimEnd s ++ w.
Proof.
  induction s as [|c s [w IH]]; simpl.
  - now exists EmptyString.
  - destruct (Str.trimEnd s) as [|d t] eqn:E.
    + destruct (Str.is_ws c).
      * now exists (String c s).
      * exists w. simpl in *. now rewrite <- IH.
    + exists w. simpl in *. now rewrite <- IH.
Qed.

Lemma carries_scheme_extend s w :
  carries_scheme s = true -> carries_scheme (s ++ w) = true.
Proof.
  unfold carries_scheme, schemes. cbn [existsb].
  repeat
    match goal with
    | |- context [Str.strip_prefix_ci ?p s] =>
        let E := fresh "E" in
        destruct (Str.strip_prefix_ci p s) eqn:E;
        [ rewrite (strip_prefix_ci_extend _ _ w _ E) | ]
    end;
    cbn; intros H; try reflexivity; try discriminate;
    rewrite ?orb_true_r; auto.
Qed.

Lemma carries_scheme_trimEnd s :
  carries_scheme (Str.trimEnd s) = true -> carries_scheme s = true.
Proof.
  intros H. destruct (trimEnd_prefix s) as [w Hw].
  rewrite Hw. now apply carries_scheme_extend.
Qed.

(** Once the letters of a prefix are known, matching it computes. *)
Ltac use_letters :=
  cbn [Str.strip_prefix_ci append];
  repeat match goal with
         | Hc : _ = Str.lower _ |- _ => rewrite <- Hc; clear Hc
         end.

Lemma strip_scheme_app pre rest :
  In (to_lower pre) schemes -> strip_scheme (pre ++ rest) = rest.
Proof.
  unfold schemes; simpl.
  intros [H|[H|[H|[H|[]]]]]; unfold strip_scheme.
  - (* http:// : the longer alternative fails on the colon *)
    assert (E : Str.strip_prefix_ci "https://" (pre ++ rest) = None).
    { do 7 (destruct pre as [|? pre]; simpl in H; [discriminate H|]).
      destruct pre; [|discriminate H].
      injection H; intros. use_letters. reflexivity. }
    rewrite E, H, strip_prefix_ci_app. reflexivity.
  - rewrite H, strip_prefix_ci_app. reflexivity.
  - assert (E : Str.strip_prefix_ci "https://" (pre ++ rest) = None
                /\ Str.strip_prefix_ci "http://" (pre ++ rest) = None).
    { destruct pre as [|? pre]; simpl in H; [discriminate H|].
      injection H; intros. split; use_letters; reflexivity. }
    destruct E as [-> ->]. rewrite H, strip_prefix_ci_app. reflexivity.
  - assert (E : Str.strip_prefix_ci "https://" (pre ++ rest) = None
                /\ Str.strip_prefix_ci "http://" (pre ++ rest) = None
                /\ Str.strip_prefix_ci "socks4://" (pre ++ rest) = None).
    { do 9 (destruct pre as [|? pre]; simpl in H; [discriminate H|]).
      destruct pre; [|discriminate H].
      injection H; intros. repeat split; use_letters; reflexivity. }
    destruct E as (-> & -> & ->). rewrite H, strip_prefix_ci_app.
    reflexivity.
Qed.

Lemma strip_scheme_none s :
  carries_scheme s = false -> strip_scheme s = s.
Proof.
  unfold carries_scheme, schemes, strip_scheme. cbn [existsb].
  destruct (Str.strip_prefix_ci "https://" s);
    destruct (Str.strip_prefix_ci "http://" s);
    destruct (Str.strip_prefix_ci "socks4://" s);
    destruct (Str.strip_prefix_ci "socks5://" s);
    cbn; intros; try discriminate; reflexivity.
Qed.

(** C2 (amended): for every non-empty raw string, normalize removes one
    leading http://, https://, socks4:// or socks5:// (in any letter
    case) when the string starts with it, trims whitespace, and returns
    the remainder verbatim.  The token carries no scheme prefix as soon
    as what is left after that one removal does not begin, after
    optional whitespace, with a scheme prefix again. *)
Theorem normalizeProxy_string (s : string) :
  s <> EmptyString ->
  normalizeProxy (VStr s) = VStr (Str.trim (strip_scheme s))
  /\ (forall pre rest,
        In (to_lower pre) schemes -> s = pre ++ rest ->
        normalizeProxy (VStr s) = VStr (Str.trim rest))
  /\ (carries_scheme s = false ->
      normalizeProxy (VStr s) = VStr (Str.trim s))
  /\ (carries_scheme (Str.trimStart (strip_scheme s)) = false ->
      forall t, normalizeProxy (VStr s) = VStr t ->
                carries_scheme t = false).
Proof.
  intros Hs.
  assert (E : normalizeProxy (VStr s) = VStr (Str.trim (strip_scheme s))).
  { destruct s; [congruence | reflexivity]. }
  repeat split.
  - exact E.
  - intros pre rest Hin ->. rewrite E. now rewrite strip_scheme_app.
  - intros Hno. rewrite E. now rewrite strip_scheme_none.
  - intros Hclean t Ht. rewrite E in Ht. injection Ht as <-.
    destruct (carries_scheme (Str.trim (strip_scheme s))) eqn:C;
      [|reflexivity].
    apply carries_scheme_trimEnd in C. congruence.
Qed.

Lemma normalizeProxy_string_witness :
  normalizeProxy (VStr "SOCKS5://1.2.3.4:1080") = VStr "1.2.3.4:1080"
  /\ carries_scheme "1.2.3.4:1080" = false.
Proof.
  destruct (normalizeProxy_string "SOCKS5://1.2.3.4:1080")
    as (H1 & _ & _ & H4); [discriminate|].
  split; [exact H1 | apply H4; reflexivity].
Defined.

(** C2, as stated, fails: a token produced from a string can carry a
    scheme prefix, because only one prefix is removed. *)
Lemma normalizeProxy_keeps_second_scheme :
  normalizeProxy (VStr "http://http://h:1") = VStr "http://h:1"
  /\ carries_scheme "http://h:1" = true.
Proof. split; reflexivity. Qed.

(** The empty string is not a proxy: it yields null. *)
Lemma normalizeProxy_empty : normalizeProxy (VStr EmptyString) = VNull.
Proof. reflexivity. Qed.

(** C9: what a structured record yields is decided by the truth value
    of its properties, not by their presence.  When host and port both
    hold a truthy value the token is host:port, prefixed with
    username:password@ when username and password both hold a truthy
    value and bare when either does not; when host or port holds a
    falsy value (undefined, null, 0, the empty string, false) the
    record yields null. *)
Theorem normalizeProxy_record (props : list (string * jsval)) :
  let field k := JS.lookup k props in
  let base := JS.to_string (field "host") ++ ":" ++
              JS.to_string (field "port") in
  (JS.truthy (field "host") = true ->
   JS.truthy (field "port") = true ->
   JS.truthy (field "username") = true ->
   JS.truthy (field "password") = true ->
   normalizeProxy (VObj props) =
     VStr (JS.to_string (field "username") ++ ":" ++
           JS.to_string (field "password") ++ "@" ++ base))
  /\ (JS.truthy (field "host") = true ->
      JS.truthy (field "port") = true ->
      JS.truthy (field "username") && JS.truthy (field "password") = false ->
      normalizeProxy (VObj props) = VStr base)
  /\ (JS.truthy (field "host") && JS.truthy (field "port") = false ->
      normalizeProxy (VObj props) = VNull).
Proof.
  intros field base. unfold normalizeProxy, JS.get', JS.get.
  cbn [JS.truthy negb]. fold (field "host") (field "port")
    (field "username") (field "password").
  split; [|split].
  - intros -> -> -> ->. reflexivity.
  - intros -> -> ->. reflexivity.
  - intros ->. reflexivity.
Qed.

Lemma normalizeProxy_record_witness :
  normalizeProxy
    (VObj [("host", VStr "h"); ("port", VNum 1);
           ("username", VStr "u"); ("password", VStr "p")]) = VStr "u:p@h:1"
  /\ normalizeProxy (VObj [("host", VStr "h"); ("port", VNum 1)])
     = VStr "h:1"
  /\ normalizeProxy (VObj [("host", VStr "h"); ("port", VNum 0)]) = VNull.
Proof.
  split; [|split].
  - apply (normalizeProxy_record
             [("host", VStr "h"); ("port", VNum 1);
              ("username", VStr "u"); ("password", VStr "p")]);
      reflexivity.
  - apply (normalizeProxy_record [("host", VStr "h"); ("port", VNum 1)]);
      reflexivity.
  - apply (normalizeProxy_record [("host", VStr "h"); ("port", VNum 0)]);
      reflexivity.
Defined.

(** C9, as stated, fails: a record that carries host and port yields
    null, not h:0, when its port is the number 0; and a record that
    carries host, port, username and password yields the bare h:8080,
    not APIKEY:@h:8080, when its password is the empty string. *)
Lemma normalizeProxy_record_carried_but_falsy :
  (forallb (carries [("host", VStr "h"); ("port", VNum 0)])
     ["host"; "port"] = true
   /\ normalizeProxy (VObj [("host", VStr "h"); ("port", VNum 0)]) = VNull
   /\ normalizeProxy (VObj [("host", VStr "h"); ("port", VNum 0)])
      <> VStr "h:0")
  /\ (forallb (carries [("host", VStr "h"); ("port", VNum 8080);
                        ("username", VStr "APIKEY");
                        ("password", VStr EmptyString)])
        ["host"; "port"; "username"; "password"] = true
      /\ normalizeProxy
           (VObj [("host", VStr "h"); ("port", VNum 8080);
                  ("username", VStr "APIKEY");
                  ("password", VStr EmptyString)]) = VStr "h:8080"
      /\ normalizeProxy
           (VObj [("host", VStr "h"); ("port", VNum 8080);
                  ("username", VStr "APIKEY");
                  ("password", VStr EmptyString)]) <> VStr "APIKEY:@h:8080").
Proof. repeat split; discriminate. Qed.

(** A falsy property counts as absent: a port of 0, or an empty host,
    yields null, and empty credentials yield the bare host:port. *)
Example normalizeProxy_falsy_fields :
  normalizeProxy (VObj [("host", VStr "h"); ("port", VNum 0)]) = VNull
  /\ normalizeProxy (VObj [("host", VStr EmptyString); ("port", VNum 1)]) = VNull
  /\ normalizeProxy
       (VObj [("host", VStr "h"); ("port", VStr "1");
              ("username", VStr EmptyString); ("password", VStr EmptyString)])
     = VStr "h:1".
Proof. repeat split. Qed.

End NormalizerFacts.

(* ================================================================== *)
(** ** Output Renderer *)
(* ================================================================== *)

Module RendererFacts.

Import Utils Props.

Lemma get_throws_TypeError v k e : JS.get v k = Throw e -> is_TypeError e.
Proof.
  destruct v; simpl; intros H; try discriminate;
    injection H as <-; eexists; reflexivity.
Qed.

Lemma mapM_throws {A B} (f : A -> outcome B) (P : exn -> Prop) :
  (forall x e, f x = Throw e -> P e) ->
  forall l e, mapM f l = Throw e -> P e.
Proof.
  intros Hf l. induction l as [|x l IH]; simpl; intros e H.
  - discriminate.
  - destruct (f x) eqn:Ex; simpl in H.
    + destruct (mapM f l); simpl in H; [discriminate|].
      injection H as <-. now apply IH.
    + injection H as <-. now apply (Hf x).
Qed.

Lemma simple_line_throws p e : simple_line p = Throw e -> is_TypeError e.
Proof.
  unfold simple_line. destruct p; try discriminate;
    match goal with
    | |- context [JS.get ?v ?k] =>
        destruct (JS.get v k) eqn:G; simpl; intros H;
        [discriminate | injection H as <-;
                        exact (get_throws_TypeError _ _ _ G)]
    end.
Qed.

Lemma unsupported_cases format :
  supported format = false ->
  String.eqb format "json" = false /\ String.eqb format "yaml" = false
  /\ String.eqb format "txt" = false.
Proof.
  unfold supported. cbn [existsb]. rewrite orb_false_r.
  intros H. apply orb_false_elim in H as [Hj H].
  apply orb_false_elim in H as [Ht Hy]. auto.
Qed.

(** C1 (amended): for every list of verdicts and every format outside
    json, txt and yaml, render with simple = false fails with
    UnsupportedFormatError; with simple = true no format is refused:
    the list is rendered one token per line, as for txt. *)
Theorem formatOutput_unsupported (E : env) (l : list jsval)
    (format : string) :
  supported format = false ->
  formatOutput E (VArr l) format false
    = Throw (UnsupportedFormatError format)
  /\ formatOutput E (VArr l) format true = formatOutput E (VArr l) "txt" true
  /\ formatOutput E (VArr l) format true
     <> Throw (UnsupportedFormatError format).
Proof.
  intros H. apply unsupported_cases in H as (Hj & Hy & Ht).
  unfold formatOutput. rewrite Hj, Hy, Ht. cbn [String.eqb Ascii.eqb].
  split; [reflexivity | split].
  - destruct (mapM simple_line l); reflexivity.
  - destruct (mapM simple_line l) eqn:M; simpl; [discriminate|].
    intros Hc. injection Hc as ->.
    destruct (mapM_throws simple_line is_TypeError simple_line_throws _ _ M)
      as [m Hm].
    discriminate Hm.
Qed.

Lemma formatOutput_unsupported_witness :
  formatOutput Sample.world
    (VArr [Sample.verdict "1.1.1.1" 80 "working"]) "xml" false
  = Throw (Exn Error "Unsupported format: xml").
Proof.
  apply (formatOutput_unsupported Sample.world
           [Sample.verdict "1.1.1.1" 80 "working"] "xml").
  reflexivity.
Defined.

(** C1, as stated, fails for simple = true: an unknown format is
    rendered, not refused. *)
Lemma formatOutput_simple_accepts_any_format :
  supported "xml" = false
  /\ formatOutput Sample.world
       (VArr [Sample.verdict "1.1.1.1" 80 "working"]) "xml" true
     = Ret "1.1.1.1:80".
Proof. split; reflexivity. Qed.

(** The scenario of the specification. *)
Example formatOutput_txt_simple :
  formatOutput Sample.world
    (VArr [VObj [("proxy", VObj [("host", VStr "1.1.1.1");
                                 ("port", VNum 80)])]]) "txt" true
  = Ret "1.1.1.1:80".
Proof. reflexivity. Qed.

Lemma formatOutput_not_array E v format simple :
  JS.isArray v = false ->
  formatOutput E v format simple
    = Throw (Exn Error "Invalid proxy data (not array)").
Proof. destruct v; simpl; intros; try discriminate; reflexivity. Qed.

End RendererFacts.

(* ================================================================== *)
(** ** Input Ingestor *)
(* ================================================================== *)

Module IngestorFacts.

Import Utils Sdk Props.

Lemma parseProxies_array E l :
  parseProxies E (VArr l) = Ret (normalize_all l).
Proof. reflexivity. Qed.

(** On its own, parseProxies hands an empty array back as an empty
    list; the emptiness test is the one of [check]. *)
Lemma parseProxies_empty_array E : parseProxies E (VArr []) = Ret [].
Proof. reflexivity. Qed.

(** C6: whenever reading the input yields an empty token list, and in
    particular for an empty array, ingestion fails with EmptyInputError;
    it never returns an empty list. *)
Theorem ingest_empty_fails (E : env) :
  (forall input,
      (JS.is_string input || JS.isArray input)%bool = true ->
      parseProxies E input = Ret [] ->
      ingest E input = Throw EmptyInputError)
  /\ ingest E (VArr []) = Throw EmptyInputError
  /\ (forall input, ingest E input <> Ret []).
Proof.
  split; [|split].
  - intros input Hshape Hp. unfold ingest.
    destruct input; try discriminate Hshape; rewrite Hp; reflexivity.
  - reflexivity.
  - intros input. unfold ingest.
    destruct input; try discriminate;
      match goal with
      | |- context [try_catch ?m ?h] => destruct (try_catch m h) as [l|]
      | |- context [parseProxies ?E ?i] => destruct (parseProxies E i) as [l|]
      end; simpl; try discriminate;
      destruct l; simpl; discriminate.
Qed.

Example check_empty_array :
  check Sample.world Sample.client (VArr []) no_options
  = ([], Throw EmptyInputError).
Proof. reflexivity. Qed.

Lemma ingest_empty_fails_witness :
  parseProxies Sample.world (VArr [VStr "http://"; VNull]) = Ret []
  /\ ingest Sample.world (VArr [VStr "http://"; VNull])
     = Throw EmptyInputError.
Proof.
  split; [reflexivity|].
  apply (ingest_empty_fails Sample.world); reflexivity.
Defined.

(** C7, on the code: with the input absent, an unreadable standard
    input gives the not-found error, a non-empty one gives its lines,
    but an empty one falls through to path.resolve, which throws a
    TypeError for the absent path. *)
Theorem parseProxies_absent_input (E : env) (input : jsval) :
  JS.nullish input = true ->
  (forall e, readStdin E = Throw e ->
             parseProxies E input = Throw NotFoundError_stdin)
  /\ (forall raw, readStdin E = Ret raw ->
                 Str.trim raw <> EmptyString ->
                 parseProxies E input = Ret (normalize_lines (Str.trim raw)))
  /\ (forall raw, readStdin E = Ret raw ->
                 Str.trim raw = EmptyString ->
                 parseProxies E input
                 = Throw (Exn TypeError
                     "The paths[1] argument must be of type string")).
Proof.
  intros Hn.
  destruct input; try discriminate Hn; unfold parseProxies; simpl;
    (split; [|split]); intros x Hx; try intros Ht; rewrite Hx; simpl;
    try reflexivity;
    try (destruct (Str.trim x); [congruence | reflexivity]);
    rewrite Ht; reflexivity.
Qed.

Lemma parseProxies_absent_input_witness :
  parseProxies Sample.world VUndefined
  = Throw (Exn TypeError "The paths[1] argument must be of type string").
Proof.
  apply (parseProxies_absent_input Sample.world VUndefined eq_refl)
    with (raw := EmptyString); reflexivity.
Defined.

(** C5, on the code: a file that exists and does not parse makes
    parseProxies fail with the parse error, but [check] catches every
    exception of parseProxies on a string input and goes on with the
    path itself as the only proxy, which it submits. *)
Theorem check_swallows_parse_error (E : env) (this : ClearProxy)
    (path raw : string) (cause : exn) :
  existsSync E (resolve_cwd E path) = true ->
  readFileSync E (resolve_cwd E path) = Ret raw ->
  detectFormat (Some path) (Str.trim raw) = "json" ->
  Str.trim raw <> EmptyString ->
  path <> EmptyString ->
  JSON_parse E (Str.trim raw) = Throw cause ->
  parseProxies E (VStr path) = Throw (ParseError_json cause)
  /\ ingest E (VStr path) = Ret [VStr path]
  /\ exists body rest,
       fst (check E this (VStr path) no_options)
         = EvSubmitRequest (baseURL this ++ "/check") (apiKey this) body
           :: rest
       /\ JS.get' body "proxies" = VArr [VStr path].
Proof.
  intros Hex Hread Hfmt Hne Hpath Hparse.
  assert (P : parseProxies E (VStr path) = Throw (ParseError_json cause)).
  { unfold parseProxies. destruct path as [|c path]; [congruence|].
    cbn [JS.truthy Str.is_empty negb].
    unfold parse_file, path_resolve. cbn [bind].
    rewrite Hex. cbn [negb]. rewrite Hread. cbn [bind].
    destruct (Str.trim raw) as [|d t] eqn:Et; [congruence|].
    cbn [Str.is_empty]. rewrite Hfmt. cbn [String.eqb Ascii.eqb].
    unfold parse_json. rewrite Hparse. reflexivity. }
  assert (I : ingest E (VStr path) = Ret [VStr path]).
  { unfold ingest. rewrite P. reflexivity. }
  split; [exact P | split; [exact I|]].
  unfold check. cbn [no_options type customUrls onProgress jobId region
                     timeout default andb validate_type allowedTypes
                     existsb String.eqb Ascii.eqb orb List.length Z.of_nat
                     Z.ltb Z.compare lift io_bind app].
  rewrite I. cbn [io_bind app]. rewrite io_bind_emit. cbn [fst].
  eexists; eexists; split; reflexivity.
Qed.

Lemma check_swallows_parse_error_witness :
  parseProxies Sample.world (VStr "proxies.json")
    = Throw (Exn Error "Failed to parse JSON: Unexpected end of JSON input")
  /\ ingest Sample.world (VStr "proxies.json") = Ret [VStr "proxies.json"].
Proof.
  destruct (check_swallows_parse_error Sample.world Sample.client
              "proxies.json" "{"
              (Exn SyntaxError "Unexpected end of JSON input"))
    as (H1 & H2 & _); try reflexivity; try discriminate.
  split; [exact H1 | exact H2].
Defined.

End IngestorFacts.

(* ================================================================== *)
(** ** Check Orchestrator *)
(* ================================================================== *)

Module OrchestratorFacts.

Import Sdk Props.

Lemma fetch_and_aggregate_trace E res :
  forallb is_fetch_step (fst (fetch_and_aggregate E res)) = true.
Proof.
  unfold fetch_and_aggregate.
  repeat (rewrite ?io_bind_lift, ?io_bind_emit; cbn [fst snd forallb
            is_fetch_step andb];
          match goal with
          | |- context [match ?m with Ret _ => _ | Throw _ => _ end] =>
              destruct m; try reflexivity
          | |- context [if ?b then _ else _] => destruct b
          | _ => idtac
          end);
    try reflexivity.
Qed.

Lemma open_progress_cases E this o j :
  (fst (open_progress E this o j) = [] /\
   snd (open_progress E this o j) <> Ret true)
  \/ exists u,
       open_progress E this o j =
       ([EvWsOpen u; EvWsOn "message"; EvWsOn "error"], Ret true).
Proof.
  unfold open_progress.
  destruct (onProgress o && given j)%bool.
  - rewrite io_bind_lift.
    destruct (ws_new E _).
    + right. eexists. reflexivity.
    + left. split; [reflexivity | discriminate].
  - left. split; [reflexivity | discriminate].
Qed.

Lemma try_finally_trace {A} (m : io A) (f : list event) :
  fst (try_finally m f) = (fst m ++ f)%list.
Proof. destruct m; reflexivity. Qed.

(** Every run of [check] leaves one of the four traces. *)
Lemma check_has_trace E this input o :
  check_trace (fst (check E this input o)).
Proof.
  unfold check.
  rewrite io_bind_lift.
  destruct (validate_type _); [|apply ct_refused].
  rewrite io_bind_lift.
  match goal with
  | |- context [if ?b then validate_customUrls ?i ?l else Ret tt] =>
      destruct (if b then validate_customUrls i l else Ret tt)
  end; [|apply ct_refused].
  rewrite io_bind_lift.
  destruct (ingest E input) as [proxies|]; [|apply ct_refused].
  rewrite io_bind_emit. cbn [fst].
  rewrite io_bind_lift.
  destruct (fetch_post E _ _) as [res|];
    [|apply ct_no_response; reflexivity].
  rewrite io_bind_emit. cbn [fst].
  pose proof (fetch_and_aggregate_trace E res) as Hbody.
  match goal with
  | |- context [open_progress ?E ?t ?o ?j] =>
      destruct (open_progress_cases E t o j) as [[Ht Hr]|[u Hu]];
      [ destruct (open_progress E t o j) as [t0 r0]; cbn [fst snd] in Ht, Hr;
        subst t0
      | rewrite Hu ]
  end.
  - destruct r0 as [[|]|e]; [congruence| |].
    + cbn [io_bind]. rewrite (surjective_pairing (try_finally _ _)).
      cbn [fst app]. rewrite try_finally_trace, app_nil_r.
      apply ct_plain; [reflexivity | exact Hbody].
    + cbn [io_bind fst]. apply ct_plain; reflexivity.
  - cbn [io_bind]. rewrite (surjective_pairing (try_finally _ _)).
    cbn [fst app]. rewrite try_finally_trace.
    apply ct_progress; [reflexivity | exact Hbody].
Qed.

Lemma fetch_steps_quiet body :
  forallb is_fetch_step body = true ->
  filter is_open body = [] /\ filter is_close body = []
  /\ forall u, ~ In (EvWsOpen u) body.
Proof.
  induction body as [|e body IH]; simpl; [tauto|].
  intros H. apply andb_prop in H as [He Hb].
  destruct (IH Hb) as (Ho & Hc & Hn).
  destruct e; try discriminate He; simpl;
    (split; [exact Ho | split; [exact Hc|]]);
    intros u [Hu|Hu]; try discriminate Hu; now apply (Hn u).
Qed.

(** What a trace that holds an opening looks like. *)
Lemma check_trace_open t u :
  check_trace t -> In (EvWsOpen u) t ->
  exists req body,
    is_submit req = true /\ forallb is_fetch_step body = true /\
    t = (req :: EvSubmitResponse :: EvWsOpen u ::
         EvWsOn "message" :: EvWsOn "error" :: body ++ [EvWsClose])%list.
Proof.
  intros Ht Hin. destruct Ht as [|req Hreq|req body Hreq Hbody
                                 |req u' body Hreq Hbody].
  - destruct Hin.
  - destruct Hin as [->|[]]. discriminate Hreq.
  - destruct (fetch_steps_quiet body Hbody) as (_ & _ & Hn).
    destruct Hin as [->|[Hin|Hin]];
      [discriminate Hreq | discriminate Hin | now apply Hn in Hin].
  - exists req, body. repeat split; try assumption.
    destruct (fetch_steps_quiet body Hbody) as (_ & _ & Hn).
    destruct Hin as [->|[Hin|[Hin|[Hin|[Hin|Hin]]]]];
      try discriminate Hreq; try discriminate Hin.
    + now injection Hin as ->.
    + apply in_app_or in Hin as [Hin|[Hin|[]]];
        [now apply Hn in Hin | discriminate Hin].
Qed.

(** C4: in every run of [check] that opened the progress subscription,
    whatever the run then met (success, a refused submission, a response
    without result location, an exception while the result is fetched),
    the subscription is opened once, closed once, and the close is the
    last step before [check] settles. *)
Theorem check_closes_subscription (E : env) (this : ClearProxy)
    (input : jsval) (o : options) (u : string) :
  let t := fst (check E this input o) in
  In (EvWsOpen u) t ->
  opens t = 1%nat /\ closes t = 1%nat
  /\ exists before between,
       t = (before ++ EvWsOpen u :: between ++ [EvWsClose])%list
       /\ closes before = 0%nat /\ closes between = 0%nat.
Proof.
  intros t Hin.
  destruct (check_trace_open t u (check_has_trace E this input o) Hin)
    as (req & body & Hreq & Hbody & Ht).
  destruct (fetch_steps_quiet body Hbody) as (Ho & Hc & _).
  assert (Hreq_o : is_open req = false) by (destruct req; try discriminate; reflexivity).
  assert (Hreq_c : is_close req = false) by (destruct req; try discriminate; reflexivity).
  rewrite Ht. unfold opens, closes. cbn [filter is_open is_close].
  rewrite Hreq_o, Hreq_c, !filter_app, Ho, Hc. cbn.
  repeat split.
  exists [req; EvSubmitResponse], (EvWsOn "message" :: EvWsOn "error" :: body).
  cbn [app filter is_close]. rewrite Hreq_c, Hc. repeat split.
Qed.

Lemma check_closes_subscription_witness :
  let t := fst (check Sample.world Sample.client Sample.two_proxies
                  Sample.with_progress) in
  opens t = 1%nat /\ closes t = 1%nat.
Proof.
  destruct (check_closes_subscription Sample.world Sample.client
              Sample.two_proxies Sample.with_progress Sample.ws_url)
    as (H1 & H2 & _).
  - vm_compute. right; right; left; reflexivity.
  - split; [exact H1 | exact H2].
Defined.

(** The exit paths, one run each. *)
Example check_run_success :
  fst (check Sample.world Sample.client Sample.two_proxies
         Sample.with_progress)
  = [ Sample.submit_request; EvSubmitResponse; EvWsOpen Sample.ws_url;
      EvWsOn "message"; EvWsOn "error";
      EvResultRequest (VStr Sample.result_url); EvResultResponse;
      EvWsClose ].
Proof. reflexivity. Qed.

Example check_run_remote_error :
  check Sample.world_remote_error Sample.client Sample.two_proxies
    Sample.with_progress
  = ([ Sample.submit_request; EvSubmitResponse; EvWsOpen Sample.ws_url;
       EvWsOn "message"; EvWsOn "error"; EvWsClose ],
     Throw (Exn Error "API Error (500): boom")).
Proof. reflexivity. Qed.

Example check_run_protocol_error :
  check Sample.world_no_result_url Sample.client Sample.two_proxies
    Sample.with_progress
  = ([ Sample.submit_request; EvSubmitResponse; EvWsOpen Sample.ws_url;
       EvWsOn "message"; EvWsOn "error"; EvWsClose ],
     Throw (Exn Error "Unexpected API response: missing 'result_url'")).
Proof. reflexivity. Qed.

Example check_run_fetch_breaks :
  check Sample.world_fetch_breaks Sample.client Sample.two_proxies
    Sample.with_progress
  = ([ Sample.submit_request; EvSubmitResponse; EvWsOpen Sample.ws_url;
       EvWsOn "message"; EvWsOn "error";
       EvResultRequest (VStr Sample.result_url); EvWsClose ],
     Throw (Exn SystemError "socket hang up")).
Proof. reflexivity. Qed.

Example check_run_offline :
  check Sample.world_offline Sample.client Sample.two_proxies
    Sample.with_progress
  = ([ Sample.submit_request ],
     Throw (Exn SystemError "getaddrinfo ENOTFOUND")).
Proof. reflexivity. Qed.

(** C3, on the code: the subscription is not opened in parallel with the
    submission.  In every run that opens it, the opening is the step
    right after the submission response has arrived; and when no
    response arrives, it is never opened. *)
Theorem check_opens_after_response (E : env) (this : ClearProxy)
    (input : jsval) (o : options) :
  let t := fst (check E this input o) in
  (forall u, In (EvWsOpen u) t ->
     exists req rest,
       is_submit req = true /\
       t = req :: EvSubmitResponse :: EvWsOpen u :: rest)
  /\ ((forall url body, exists e, fetch_post E url body = Throw e) ->
      opens t = 0%nat).
Proof.
  intros t. split.
  - intros u Hin.
    destruct (check_trace_open t u (check_has_trace E this input o) Hin)
      as (req & body & Hreq & _ & Ht).
    exists req. eexists. split; [exact Hreq | exact Ht].
  - intros Hoff. subst t. unfold check.
    rewrite io_bind_lift.
    destruct (validate_type _); [|reflexivity].
    rewrite io_bind_lift.
    match goal with
    | |- context [if ?b then validate_customUrls ?i ?l else Ret tt] =>
        destruct (if b then validate_customUrls i l else Ret tt)
    end; [|reflexivity].
    rewrite io_bind_lift.
    destruct (ingest E input) as [proxies|]; [|reflexivity].
    rewrite io_bind_emit. cbn [fst].
    rewrite io_bind_lift.
    match goal with
    | |- context [fetch_post E ?url ?body] =>
        destruct (Hoff url body) as [e He]; rewrite He
    end.
    reflexivity.
Qed.

Lemma check_opens_after_response_witness :
  exists rest,
    fst (check Sample.world Sample.client Sample.two_proxies
           Sample.with_progress)
    = Sample.submit_request :: EvSubmitResponse :: EvWsOpen Sample.ws_url
      :: rest.
Proof.
  destruct (check_opens_after_response Sample.world Sample.client
              Sample.two_proxies Sample.with_progress) as [H _].
  destruct (H Sample.ws_url) as (req & rest & _ & Ht).
  - vm_compute. right; right; left; reflexivity.
  - exists rest. rewrite Ht. vm_compute in Ht. injection Ht as <- <-.
    reflexivity.
Defined.

End OrchestratorFacts.

(* ================================================================== *)
(** ** Result Aggregator *)
(* ================================================================== *)

Module AggregatorFacts.

Import Sdk Props.

Lemma get_present v k : present v = true -> JS.get v k = Ret (JS.get' v k).
Proof. destruct v; simpl; intros H; try discriminate H; reflexivity. Qed.

Lemma filterM_total {A} (f : A -> outcome bool) (g : A -> bool) l :
  (forall x, In x l -> f x = Ret (g x)) ->
  filterM f l = Ret (filter g l).
Proof.
  induction l as [|x l IH]; simpl; intros H; [reflexivity|].
  rewrite (H x (or_introl eq_refl)). simpl.
  rewrite IH by (intros y Hy; apply H; now right). reflexivity.
Qed.

Lemma filter_status_spec resultData ps s :
  present resultData = true ->
  verdicts_of resultData = Some ps ->
  forallb present ps = true ->
  filter_status resultData s = Ret (VArr (filter (has_status s) ps)).
Proof.
  intros Hr Hv Hps. unfold filter_status, verdicts_of in *.
  rewrite (get_present _ _ Hr). cbn [bind].
  destruct (JS.get' resultData "proxies") as [| | | | |l|]; try discriminate Hv;
    injection Hv as <-; try reflexivity.
  cbn [JS.nullish].
  rewrite (filterM_total _ (has_status s)); [reflexivity|].
  intros p Hp. rewrite forallb_forall in Hps.
  rewrite (get_present _ _ (Hps p Hp)). reflexivity.
Qed.

(** C8: for every result payload whose verdicts are a list of records
    (or are absent), the working view is the sublist of the verdicts
    whose status is the string working, the failed view the sublist whose
    status is the string failed, both in the order of the payload. *)
Theorem aggregate_views (resultData data : jsval) (ps : list jsval) :
  present resultData = true ->
  present data = true ->
  verdicts_of resultData = Some ps ->
  forallb present ps = true ->
  exists r,
    aggregate resultData data = Ret r
    /\ JS.get' r "proxies" = VArr ps
    /\ JS.get' r "working" = VArr (filter (has_status "working") ps)
    /\ JS.get' r "failed" = VArr (filter (has_status "failed") ps).
Proof.
  intros Hr Hd Hv Hps. unfold aggregate.
  rewrite !(get_present resultData _ Hr), (get_present data _ Hd).
  rewrite (filter_status_spec _ ps "working" Hr Hv Hps),
          (filter_status_spec _ ps "failed" Hr Hv Hps).
  cbn [bind].
  destruct (JS.truthy (JS.get' resultData "custom_url_validation"));
    cbn [bind]; eexists; (split; [reflexivity|]);
    cbn [JS.get' JS.get JS.lookup String.eqb Ascii.eqb];
    (split; [|split; reflexivity]);
    unfold verdicts_of in Hv;
    destruct (JS.get' resultData "proxies"); try discriminate Hv;
    injection Hv as <-; reflexivity.
Qed.

Lemma aggregate_views_witness :
  exists r working failed,
    aggregate Sample.payload (VObj [("result_url", VStr Sample.result_url)])
      = Ret r
    /\ JS.get' r "working" = VArr working /\ List.length working = 1%nat
    /\ JS.get' r "failed" = VArr failed /\ List.length failed = 1%nat.
Proof.
  destruct (aggregate_views Sample.payload
              (VObj [("result_url", VStr Sample.result_url)])
              [ Sample.verdict "1.1.1.1" 8080 "working";
                Sample.verdict "bad-entry" 0 "failed" ])
    as (r & Hr & _ & Hw & Hf); try reflexivity.
  exists r. do 2 eexists.
  split; [exact Hr|]. split; [exact Hw|]. split; [reflexivity|].
  split; [exact Hf | reflexivity].
Defined.

(** The scenario of the specification, through [check]. *)
Example check_two_verdicts :
  exists r,
    snd (check Sample.world Sample.client Sample.two_proxies no_options)
      = Ret r
    /\ JS.get' r "working" = VArr [Sample.verdict "1.1.1.1" 8080 "working"]
    /\ JS.get' r "failed" = VArr [Sample.verdict "bad-entry" 0 "failed"].
Proof. eexists. repeat split. Qed.

(** A payload whose [proxies] is neither absent nor an array makes
    [check] throw from the aggregation. *)
Example aggregate_ill_typed :
  aggregate (VObj [("proxies", VStr "none")]) (VObj [])
  = Throw (Exn TypeError "resultData.proxies?.filter is not a function").
Proof. reflexivity. Qed.

Section SummaryFacts.

Variable js_add : jsval -> jsval -> jsval.
Variable js_gt_zero : jsval -> bool.
Variable percent_toFixed2 : jsval -> jsval -> string.

Hypothesis add_integers : forall a b, js_add (VNum a) (VNum b) = VNum (a + b).
Hypothesis gt_zero_integer : forall n, js_gt_zero (VNum n) = (0 <? n).

Lemma or_zero_count c :
  is_count c = true -> JS.or c (VNum 0) = VNum (count_value c).
Proof.
  destruct c; try discriminate; intros _; try reflexivity.
  unfold JS.or. simpl. destruct (n =? 0) eqn:E; simpl; [|reflexivity].
  apply Z.eqb_eq in E. now subst.
Qed.

Lemma reduce_count_total k l acc :
  forallb (fun r => present r && is_count (JS.get' r k))%bool l = true ->
  reduce_count js_add k l (VNum acc) = Ret (VNum (acc + total k l)).
Proof.
  revert acc. induction l as [|r l IH]; simpl; intros acc H.
  - now rewrite Z.add_0_r.
  - apply andb_prop in H as [Hr Hl]. apply andb_prop in Hr as [Hp Hc].
    rewrite (get_present _ _ Hp). cbn [bind].
    rewrite (or_zero_count _ Hc), add_integers, IH by exact Hl.
    now rewrite Z.add_assoc.
Qed.


Lemma entries_ok_split l :
  forallb entry_ok l = true ->
  forallb (fun r => present r && is_count (JS.get' r "success_count"))%bool l
    = true
  /\ forallb (fun r => present r && is_count (JS.get' r "failed_count"))%bool l
    = true
  /\ forallb present l = true.
Proof.
  induction l as [|r l IH]; simpl; [auto|].
  intros H. apply andb_prop in H as [Hr Hl]. destruct (IH Hl) as (A & B & C).
  unfold entry_ok in Hr. apply andb_prop in Hr as [Hr Hf].
  apply andb_prop in Hr as [Hp Hs].
  rewrite A, B, C, Hp, Hs, Hf. auto.
Qed.


End SummaryFacts.



(** The shapes of a validation report with no entry. *)
Example perUrlResults_empty_shapes :
  perUrlResults (VObj []) = VArr []
  /\ perUrlResults (VArr []) = VArr []
  /\ perUrlResults (VObj [("per_url_summary", VArr [])]) = VArr []
  /\ perUrlResults (VObj [("results", VArr [])]) = VArr [].
Proof. repeat split. Qed.

(** A run with entries: one URL, three proxies passed and one failed. *)
Example getCustomUrlSummary_run :
  getCustomUrlSummary Sample.add Sample.gt_zero Sample.percent
    (VObj [("custom_url_validation",
            VArr [VObj [("url", VStr "https://discord.com");
                        ("success_count", VNum 3);
                        ("failed_count", VNum 1);
                        ("success_rate", VStr "75.00%")]])])
  = Ret (VObj
      [ ("total_urls", VNum 1); ("total_proxies_tested", VNum 4);
        ("total_success", VNum 3); ("total_failed", VNum 1);
        ("overall_success_rate", VStr "75.00%");
        ("per_url",
          VArr [VObj [("url", VStr "https://discord.com");
                      ("success_count", VNum 3);
                      ("failed_count", VNum 1);
                      ("success_rate", VStr "75.00%")]]) ]).
Proof. reflexivity. Qed.

End AggregatorFacts.

(* ================================================================== *)
(** ** The command line tool, for comparison *)
(* ================================================================== *)

Module CliFacts.

Import Props.

(** X20: the command line tool opens the subscription before it issues the
    submission: every trace that holds a submission request starts with
    the opening. *)
Lemma cli_opens_before_submission E key proxies region timeout type
    customUrls :
  let t := fst (Cli.submit E key proxies region timeout type customUrls) in
  t = []
  \/ exists u req rest,
       is_submit req = true /\
       t = EvWsOpen u :: EvWsOn "message" :: EvWsOn "error" :: req :: rest.
Proof.
  intros t. subst t. unfold Cli.submit.
  rewrite io_bind_lift. destruct (ws_new E _); [|left; reflexivity].
  right. rewrite !io_bind_emit. cbn [fst].
  do 3 eexists. split; [|reflexivity]. reflexivity.
Qed.

Example cli_run :
  exists req,
    fst (Cli.submit Sample.world "clearpx_key"
           [VStr "1.1.1.1:8080"; VStr "bad-entry"] None 4000 "http" [])
    = [ EvWsOpen "wss://api.clearproxy.io/ws?jobId=cli_k3j5x9q2a_1700000000000";
        EvWsOn "message"; EvWsOn "error"; req; EvSubmitResponse; EvWsClose;
        EvResultRequest (VStr Sample.result_url); EvResultResponse ].
Proof. eexists. reflexivity. Qed.

(** X21: the command line tool lets the parse error of a file that exists
    reach its caller. *)
Lemma cli_surfaces_parse_error E path raw cause args :
  let absPath := resolve_cwd E path in
  path <> EmptyString ->
  absPath <> EmptyString ->
  resolve_cwd E absPath = absPath ->
  existsSync E absPath = true ->
  readFileSync E absPath = Ret raw ->
  Utils.detectFormat (Some absPath) (Str.trim raw) = "json" ->
  Str.trim raw <> EmptyString ->
  JSON_parse E (Str.trim raw) = Throw cause ->
  Cli.ingest E (Some path) args = Throw (ParseError_json cause).
Proof.
  intros absPath Hpath Habs Hidem Hex Hread Hfmt Hne Hparse.
  unfold Cli.ingest. destruct path as [|c path]; [congruence|].
  cbn [Str.is_empty]. fold absPath. rewrite Hex.
  unfold Utils.parseProxies.
  destruct absPath as [|d absPath'] eqn:Ea; [congruence|].
  cbn [JS.truthy Str.is_empty negb].
  unfold Utils.parse_file, path_resolve. cbn [bind].
  rewrite Hidem, Hex. cbn [negb]. rewrite Hread. cbn [bind].
  destruct (Str.trim raw) as [|e t] eqn:Et; [congruence|].
  cbn [Str.is_empty JS.to_string]. rewrite Hfmt. cbn [String.eqb Ascii.eqb].
  unfold Utils.parse_json. rewrite Hparse. reflexivity.
Qed.

Example cli_ingest_run :
  Cli.ingest Sample.world (Some "proxies.json") ["proxies.json"]
  = Throw (Exn Error "Failed to parse JSON: Unexpected end of JSON input").
Proof. reflexivity. Qed.

End CliFacts.

(* ================================================================== *)
(** ** Strings: trimming and line splitting *)
(* ================================================================== *)

Module StringFacts.

Import MoreProps.

Lemma trimStart_head s :
  Str.trimStart s = EmptyString
  \/ exists c r, Str.trimStart s = String c r /\ Str.is_ws c = false.
Proof.
  induction s as [|c s IH]; simpl; [now left|].
  destruct (Str.is_ws c) eqn:W; [exact IH|].
  right. now exists c, s.
Qed.

Lemma trimStart_fixed c r :
  Str.is_ws c = false -> Str.trimStart (String c r) = String c r.
Proof. intros W. simpl. now rewrite W. Qed.

Lemma trimEnd_head c r :
  Str.is_ws c = false -> exists r', Str.trimEnd (String c r) = String c r'.
Proof.
  intros W. simpl. destruct (Str.trimEnd r); rewrite ?W; eexists; reflexivity.
Qed.

Lemma trimEnd_cons c r :
  Str.trimEnd (String c r)
  = match Str.trimEnd r with
    | EmptyString => if Str.is_ws c then EmptyString else String c EmptyString
    | String d t => String c (String d t)
    end.
Proof. reflexivity. Qed.

Lemma trimEnd_idem s : Str.trimEnd (Str.trimEnd s) = Str.trimEnd s.
Proof.
  induction s as [|c s IH]; [reflexivity|].
  rewrite (trimEnd_cons c s).
  destruct (Str.trimEnd s) as [|d t] eqn:E.
  - destruct (Str.is_ws c) eqn:W; simpl; [reflexivity | now rewrite W].
  - rewrite trimEnd_cons, IH. reflexivity.
Qed.

Lemma trim_idem s : Str.trim (Str.trim s) = Str.trim s.
Proof.
  unfold Str.trim.
  destruct (trimStart_head s) as [E|(c & r & E & W)]; rewrite E.
  - reflexivity.
  - destruct (trimEnd_head c r W) as [r' E'].
    rewrite E', (trimStart_fixed c r' W), <- E'. apply trimEnd_idem.
Qed.

Lemma append_assoc (a b c : string) : (a ++ b) ++ c = a ++ (b ++ c).
Proof. induction a; simpl; congruence. Qed.

Lemma rev_onto_app s acc :
  Str.rev_onto s acc = Str.rev s ++ acc.
Proof.
  unfold Str.rev. revert acc.
  induction s as [|c s IH]; intros acc; simpl; [reflexivity|].
  rewrite IH, (IH (String c EmptyString)).
  rewrite append_assoc. reflexivity.
Qed.

Lemma append_empty_r (s : string) : s ++ EmptyString = s.
Proof. induction s; simpl; congruence. Qed.

Lemma rev_cons c a : Str.rev (String c a) = Str.rev a ++ String c EmptyString.
Proof. unfold Str.rev at 1. simpl. apply rev_onto_app. Qed.

Lemma rev_app a b : Str.rev (a ++ b) = Str.rev b ++ Str.rev a.
Proof.
  induction a as [|c a IH]; simpl.
  - now rewrite append_empty_r.
  - rewrite !rev_cons, IH. apply append_assoc.
Qed.

Lemma startsWith_app p s : Str.startsWith (p ++ s) p = true.
Proof.
  induction p as [|c p IH]; simpl; [destruct s; reflexivity|].
  now rewrite Ascii.eqb_refl, IH.
Qed.

Lemma endsWith_app base suffix : Str.endsWith (base ++ suffix) suffix = true.
Proof. unfold Str.endsWith. rewrite rev_app. apply startsWith_app. Qed.

(** Reading one line up to its line feed. *)
Lemma split_lines_from_line line rest cur :
  no_break line = true ->
  Str.split_lines_from (line ++ String LF rest) cur
  = (Str.rev cur ++ line) :: Str.split_lines_from rest EmptyString.
Proof.
  unfold LF. revert cur. induction line as [|c line IH]; intros cur H.
  - simpl. now rewrite append_empty_r.
  - simpl in H. apply andb_prop in H as [H Hl].
    apply andb_prop in H as [Hlf Hcr].
    apply negb_true_iff in Hlf, Hcr. unfold LF, CR in *.
    cbn [append Str.split_lines_from]. rewrite Hlf.
    pose proof (IH (String c cur) Hl) as Hnext.
    rewrite rev_cons, append_assoc in Hnext.
    change (String c EmptyString ++ line) with (String c line) in Hnext.
    remember (line ++ String "010" rest) as r.
    destruct r; [exact Hnext | rewrite Hcr; exact Hnext].
Qed.

(** Reading the last line. *)
Lemma split_lines_from_last line cur :
  no_break line = true ->
  Str.split_lines_from line cur = [Str.rev cur ++ line].
Proof.
  revert cur. induction line as [|c line IH]; intros cur H.
  - simpl. now rewrite append_empty_r.
  - simpl in H. apply andb_prop in H as [H Hl].
    apply andb_prop in H as [Hlf Hcr].
    apply negb_true_iff in Hlf, Hcr. unfold LF, CR in *.
    cbn [Str.split_lines_from]. rewrite Hlf.
    pose proof (IH (String c cur) Hl) as Hnext.
    rewrite rev_cons, append_assoc in Hnext.
    change (String c EmptyString ++ line) with (String c line) in Hnext.
    destruct line; [exact Hnext | rewrite Hcr; exact Hnext].
Qed.

(** Joining lines with a line feed and splitting again gives the lines
    back. *)
Lemma split_lines_join lines :
  lines <> [] ->
  forallb no_break lines = true ->
  Str.split_lines (Str.join Utils.nl lines) = lines.
Proof.
  unfold Str.split_lines.
  induction lines as [|x lines IH]; [congruence|].
  intros _ H. cbn [forallb] in H. apply andb_prop in H as [Hx Hl].
  destruct lines as [|y lines].
  - cbn [Str.join]. now rewrite split_lines_from_last.
  - change (Str.join Utils.nl (x :: y :: lines))
      with (x ++ String LF (Str.join Utils.nl (y :: lines))).
    rewrite split_lines_from_line by exact Hx.
    rewrite IH by (try discriminate; exact Hl). reflexivity.
Qed.

End StringFacts.

(* ================================================================== *)
(** ** Input Ingestor: formats, tokens and fallbacks *)
(* ================================================================== *)

Module IngestorMore.

Import Utils Sdk Props MoreProps StringFacts.

(** X1: the file extension decides the format, whatever the content; and
    the format is always one of json, csv and txt. *)
Theorem detectFormat_by_extension (base content : string)
    (filePath : option string) :
  detectFormat (Some (base ++ ".json")) content = "json"
  /\ detectFormat (Some (base ++ ".csv")) content = "csv"
  /\ detectFormat (Some (base ++ ".txt")) content = "txt"
  /\ In (detectFormat filePath content) ["json"; "csv"; "txt"].
Proof.
  repeat split.
  - unfold detectFormat. now rewrite endsWith_app.
  - unfold detectFormat. rewrite (endsWith_app base ".csv").
    unfold Str.endsWith. rewrite rev_app. reflexivity.
  - unfold detectFormat. rewrite (endsWith_app base ".txt").
    unfold Str.endsWith. rewrite rev_app. reflexivity.
  - unfold detectFormat.
    repeat match goal with
           | |- context [if ?b then _ else _] => destruct b
           end; simpl; auto.
Qed.

Lemma normalizeProxy_shape p :
  normalizeProxy p = VNull \/ exists s, normalizeProxy p = VStr s.
Proof.
  unfold normalizeProxy.
  destruct (negb (JS.truthy p)); [now left|].
  destruct p; try (now right; eexists);
    repeat match goal with
           | |- context [if ?b then _ else _] => destruct b
           end; (now left) || (right; eexists; reflexivity).
Qed.

Lemma normalize_all_tokens l : forallb is_token (normalize_all l) = true.
Proof.
  unfold normalize_all. induction l as [|p l IH]; simpl; [reflexivity|].
  destruct (normalizeProxy_shape p) as [E|[s E]]; rewrite E; simpl.
  - exact IH.
  - destruct s; simpl; [exact IH | now rewrite IH].
Qed.

Lemma tokens_are_strings l :
  forallb is_token l = true -> forallb JS.is_string l = true.
Proof.
  induction l as [|v l IH]; simpl; [reflexivity|].
  intros H. apply andb_prop in H as [Hv Hl].
  destruct v; try discriminate Hv. simpl. now apply IH.
Qed.

Lemma normalize_lines_strings s :
  forallb JS.is_string (normalize_lines s) = true.
Proof.
  unfold normalize_lines.
  induction (Str.split_lines s) as [|x l IH]; simpl; [reflexivity|].
  destruct x; simpl; [exact IH | exact IH].
Qed.

Lemma parse_json_tokens E content l :
  parse_json E content = Ret l -> forallb is_token l = true.
Proof.
  unfold parse_json. destruct (JSON_parse E content) as [j|e]; simpl;
    [|discriminate].
  destruct j; simpl; try discriminate;
    try (intros H; injection H as <-; apply normalize_all_tokens).
  destruct (JS.lookup "proxies" props); simpl; try discriminate.
  intros H; injection H as <-; apply normalize_all_tokens.
Qed.

Lemma parse_csv_tokens E content l :
  parse_csv E content = Ret l -> forallb is_token l = true.
Proof.
  unfold parse_csv. destruct (parseCSV E content) as [records|e]; simpl;
    [|discriminate].
  intros H; injection H as <-; apply normalize_all_tokens.
Qed.

Lemma parse_file_strings E input l :
  parse_file E input = Ret l -> forallb JS.is_string l = true.
Proof.
  unfold parse_file.
  destruct (path_resolve E input) as [absPath|]; simpl; [|discriminate].
  destruct (existsSync E absPath); simpl; [|discriminate].
  destruct (readFileSync E absPath) as [raw|]; simpl; [|discriminate].
  destruct (Str.is_empty (Str.trim raw)); [discriminate|].
  destruct (String.eqb _ "json").
  { intros H. eapply tokens_are_strings, parse_json_tokens, H. }
  destruct (String.eqb _ "csv").
  { intros H. eapply tokens_are_strings, parse_csv_tokens, H. }
  intros H. injection H as <-. apply normalize_lines_strings.
Qed.

Lemma parseProxies_strings (E : env) (input : jsval) (l : list jsval) :
  parseProxies E input = Ret l -> forallb JS.is_string l = true.
Proof.
  unfold parseProxies.
  destruct input as [| | | | |elems|];
    try (destruct (negb (JS.truthy _));
         [ destruct (readStdin E) as [raw|]; simpl; [|discriminate];
           destruct (negb (Str.is_empty (Str.trim raw))); simpl;
           [ intros H; injection H as <-; apply normalize_lines_strings
           | apply parse_file_strings ]
         | apply parse_file_strings ]).
  intros H. injection H as <-.
  apply tokens_are_strings, normalize_all_tokens.
Qed.

(** X2: every token parseProxies returns is a string, whatever the input
    (array, standard input, or a file of any format); from an array the
    tokens are moreover non-empty. *)
Theorem parseProxies_tokens_are_strings (E : env) (input : jsval)
    (l : list jsval) :
  parseProxies E input = Ret l ->
  forallb JS.is_string l = true
  /\ (JS.isArray input = true -> forallb is_token l = true).
Proof.
  intros H. split; [exact (parseProxies_strings E input l H)|].
  destruct input; try discriminate. intros _.
  injection H as <-. apply normalize_all_tokens.
Qed.

Lemma parseProxies_tokens_are_strings_witness :
  let input :=
    VArr [VStr "http://1.1.1.1:8080"; VNull;
          VObj [("host", VStr "h"); ("port", VNum 1);
                ("username", VStr "u"); ("password", VStr "p")]] in
  let tokens := [VStr "1.1.1.1:8080"; VStr "u:p@h:1"] in
  parseProxies Sample.world input = Ret tokens
  /\ forallb JS.is_string tokens = true.
Proof.
  intros input tokens. split; [reflexivity|].
  destruct (parseProxies_tokens_are_strings Sample.world input tokens
              eq_refl) as [H _].
  exact H.
Defined.

Lemma normalize_string_token s :
  JS.truthy (normalizeProxy (VStr s)) = true ->
  is_trimmed_token (normalizeProxy (VStr s)) = true.
Proof.
  destruct s as [|c s]; [discriminate|].
  change (normalizeProxy (VStr (String c s)))
    with (VStr (Str.trim (strip_scheme (String c s)))).
  cbn [JS.truthy is_trimmed_token]. intros ->.
  rewrite trim_idem. now rewrite String.eqb_refl.
Qed.

(** X3: an array of strings yields tokens that are non-empty and carry no
    surrounding whitespace, and never more tokens than strings. *)
Theorem parseProxies_array_of_strings (E : env) (ss : list string)
    (ts : list jsval) :
  parseProxies E (VArr (map VStr ss)) = Ret ts ->
  forallb is_trimmed_token ts = true
  /\ (List.length ts <= List.length ss)%nat.
Proof.
  intros H. injection H as <-. unfold normalize_all.
  induction ss as [|s ss [IHt IHl]]; [split; [reflexivity | apply Nat.le_refl]|].
  cbn [map filter].
  destruct (JS.truthy (normalizeProxy (VStr s))) eqn:T.
  - cbn [forallb List.length]. rewrite (normalize_string_token s T), IHt.
    split; [reflexivity | now apply le_n_S].
  - split; [exact IHt | cbn [List.length]; now apply Nat.le_le_succ_r].
Qed.

Lemma parseProxies_array_of_strings_witness :
  let ss := ["HTTPS://1.1.1.1:8080 "; "http://"; "2.2.2.2:80"] in
  let ts := [VStr "1.1.1.1:8080"; VStr "2.2.2.2:80"] in
  parseProxies Sample.world (VArr (map VStr ss)) = Ret ts
  /\ forallb is_trimmed_token ts = true.
Proof.
  intros ss ts. split; [reflexivity|].
  apply (parseProxies_array_of_strings Sample.world ss ts). reflexivity.
Defined.

Lemma filter_all {A} (f : A -> bool) l :
  forallb f l = true -> filter f l = l.
Proof.
  induction l as [|x l IH]; simpl; [reflexivity|].
  intros H. apply andb_prop in H as [-> Hl]. now rewrite IH.
Qed.

Lemma lines_no_break lines :
  forallb is_line lines = true ->
  forallb no_break lines = true
  /\ forallb (fun l => negb (Str.is_empty l)) lines = true.
Proof.
  induction lines as [|x l IH]; simpl; [auto|].
  intros H. apply andb_prop in H as [Hx Hl]. destruct (IH Hl) as [A B].
  unfold is_line in Hx. apply andb_prop in Hx as [-> ->]. now rewrite A, B.
Qed.

Lemma join_not_empty x lines :
  Str.is_empty x = false -> Str.is_empty (Str.join nl (x :: lines)) = false.
Proof.
  destruct x; [discriminate|]. intros _. destruct lines; reflexivity.
Qed.

(** Reading a plain-text file whose trimmed content is the given lines. *)
Lemma parse_text_file (E : env) (path raw : string) (lines : list string) :
  path <> EmptyString ->
  existsSync E (resolve_cwd E path) = true ->
  readFileSync E (resolve_cwd E path) = Ret raw ->
  Str.trim raw = Str.join nl lines ->
  detectFormat (Some path) (Str.join nl lines) = "txt" ->
  lines <> [] ->
  forallb is_line lines = true ->
  parseProxies E (VStr path)
  = Ret (map (fun l => normalizeProxy (VStr l)) lines).
Proof.
  intros Hpath Hex Hread Htrim Hfmt Hne Hlines.
  destruct (lines_no_break lines Hlines) as [Hnb Hnonempty].
  unfold parseProxies. destruct path as [|c path]; [congruence|].
  cbn [JS.truthy Str.is_empty negb].
  unfold parse_file, path_resolve. cbn [bind].
  rewrite Hex. cbn [negb]. rewrite Hread. cbn [bind]. rewrite Htrim.
  destruct lines as [|x rest]; [congruence|].
  cbn [forallb] in Hnonempty. apply andb_prop in Hnonempty as [Hx Hrest].
  apply negb_true_iff in Hx.
  rewrite (join_not_empty x rest Hx), Hfmt. cbn [String.eqb Ascii.eqb].
  unfold normalize_lines.
  rewrite split_lines_join by (try discriminate; exact Hnb).
  rewrite filter_all; [reflexivity|].
  cbn [forallb]. now rewrite Hx, Hrest.
Qed.

(** X4: a plain-text file and the array of its lines give the same tokens,
    except that the array drops the lines that normalize to nothing and
    the file keeps them. *)
Theorem text_file_matches_array (E : env) (path raw : string)
    (lines : list string) :
  path <> EmptyString ->
  existsSync E (resolve_cwd E path) = true ->
  readFileSync E (resolve_cwd E path) = Ret raw ->
  Str.trim raw = Str.join nl lines ->
  detectFormat (Some path) (Str.join nl lines) = "txt" ->
  lines <> [] ->
  forallb is_line lines = true ->
  let tokens := map (fun l => normalizeProxy (VStr l)) lines in
  parseProxies E (VStr path) = Ret tokens
  /\ parseProxies E (VArr (map VStr lines)) = Ret (filter JS.truthy tokens)
  /\ (forallb JS.truthy tokens = true ->
      parseProxies E (VArr (map VStr lines)) = parseProxies E (VStr path)).
Proof.
  intros Hpath Hex Hread Htrim Hfmt Hne Hlines tokens.
  assert (F : parseProxies E (VStr path) = Ret tokens).
  { now apply parse_text_file with (raw := raw). }
  assert (A : parseProxies E (VArr (map VStr lines))
              = Ret (filter JS.truthy tokens)).
  { unfold parseProxies, normalize_all, tokens. now rewrite map_map. }
  split; [exact F | split; [exact A|]].
  intros Hall. rewrite A, F, (filter_all _ _ Hall). reflexivity.
Qed.

Lemma text_file_matches_array_witness :
  let lines := ["http://1.1.1.1:8080"; "socks5://"; "2.2.2.2:80"] in
  parseProxies MoreSample.world_with_list (VStr "list.txt")
    = Ret [VStr "1.1.1.1:8080"; VStr EmptyString; VStr "2.2.2.2:80"]
  /\ parseProxies MoreSample.world_with_list (VArr (map VStr lines))
    = Ret [VStr "1.1.1.1:8080"; VStr "2.2.2.2:80"].
Proof.
  intros lines.
  destruct (text_file_matches_array MoreSample.world_with_list "list.txt"
              MoreSample.list_txt lines) as (F & A & _);
    try reflexivity; try discriminate.
  split; [exact F | exact A].
Defined.

(** X5: on a string input [check] never reports a missing file, an empty
    file or a parse error: whatever parseProxies throws, the string
    itself becomes the only token, as it is; the one failure left is the
    empty list. *)
Theorem ingest_string_fallback (E : env) (s : string) :
  (forall e, parseProxies E (VStr s) = Throw e ->
             ingest E (VStr s) = Ret [VStr s])
  /\ (forall l, parseProxies E (VStr s) = Ret l -> l <> [] ->
                ingest E (VStr s) = Ret l)
  /\ (forall e, ingest E (VStr s) = Throw e -> e = EmptyInputError).
Proof.
  unfold ingest. repeat split.
  - intros e ->. reflexivity.
  - intros l -> Hl. destruct l; [congruence | reflexivity].
  - intros e. destruct (parseProxies E (VStr s)) as [l|e']; simpl.
    + destruct l; simpl; intros H; [now injection H as <- | discriminate H].
    + discriminate.
Qed.

(** A string that names no file is submitted as it is, scheme and
    all. *)
Example ingest_inline_keeps_scheme :
  ingest Sample.world (VStr "http://1.2.3.4:80")
  = Ret [VStr "http://1.2.3.4:80"].
Proof. reflexivity. Qed.

(** X6: the JSON format takes a top-level array or an object with a
    [proxies] array, with the same result; every failure of the JSON
    branch carries the message prefix of the parse error. *)
Theorem parse_json_shapes (E : env) (content : string) :
  (forall l, JSON_parse E content = Ret (VArr l) ->
             parse_json E content = Ret (normalize_all l))
  /\ (forall props l,
        JSON_parse E content = Ret (VObj props) ->
        JS.lookup "proxies" props = VArr l ->
        parse_json E content = Ret (normalize_all l))
  /\ (forall e, parse_json E content = Throw e ->
        exists m, e = Exn Error ("Failed to parse JSON: " ++ m)).
Proof.
  unfold parse_json. repeat split.
  - intros l ->. reflexivity.
  - intros props l -> Hl. simpl. rewrite Hl. reflexivity.
  - intros e. destruct (JSON_parse E content) as [j|e0]; simpl.
    + destruct j; simpl; try discriminate;
        try (intros H; injection H as <-; eexists; reflexivity).
      destruct (JS.lookup "proxies" props); simpl; try discriminate;
        intros H; injection H as <-; eexists; reflexivity.
    + intros H; injection H as <-; eexists; reflexivity.
Qed.

End IngestorMore.

(* ================================================================== *)
(** ** Output Renderer: projections and round trips *)
(* ================================================================== *)

Module RendererMore.

Import Utils Sdk Props MoreProps StringFacts IngestorMore.

Lemma get_of_present v k : present v = true -> JS.get v k = Ret (JS.get' v k).
Proof. destruct v; simpl; intros H; try discriminate H; reflexivity. Qed.

Lemma get_opt_of_present v k : present v = true -> JS.get_opt v k = JS.get' v k.
Proof. destruct v; simpl; intros H; try discriminate H; reflexivity. Qed.

(** X7: the simple projection of a verdict is the token the normalizer makes
    of the verdict's proxy record, provided the record has a host and a
    port and its hasAuth flag says whether both credentials are there. *)
Theorem simple_line_agrees_with_normalizer (p : jsval) :
  verdict_ok p = true ->
  exists s, simple_line p = Ret s
            /\ normalizeProxy (JS.get' p "proxy") = VStr s.
Proof.
  unfold verdict_ok. intros H.
  repeat match type of H with
         | (_ && _)%bool = true =>
             let H' := fresh "H" in apply andb_prop in H as [H H']
         end.
  assert (Es : simple_line p
               = (let proxy := JS.get' p "proxy" in
                  let auth :=
                    if JS.truthy (JS.get' proxy "hasAuth")
                    then JS.to_string (JS.get' proxy "username") ++ ":" ++
                         JS.to_string (JS.get' proxy "password") ++ "@"
                    else EmptyString in
                  Ret (auth ++ JS.to_string (JS.get' proxy "host") ++ ":" ++
                       JS.to_string (JS.get' proxy "port")))).
  { unfold simple_line. destruct p; try discriminate;
      rewrite get_of_present by assumption; cbn [bind];
      rewrite !get_opt_of_present by assumption; reflexivity. }
  rewrite Es. cbv zeta.
  destruct (JS.get' p "proxy") as [| | | | | |pp] eqn:Ep;
    try discriminate.
  unfold normalizeProxy. cbn [JS.truthy negb].
  match goal with
  | Hh : JS.truthy (JS.get' _ "host") = true,
    Hp : JS.truthy (JS.get' _ "port") = true |- _ => rewrite Hh, Hp
  end.
  cbn [andb].
  match goal with
  | Ha : Bool.eqb _ _ = true |- _ => apply Bool.eqb_prop in Ha; rewrite Ha
  end.
  destruct (JS.truthy (JS.get' (VObj pp) "username")
            && JS.truthy (JS.get' (VObj pp) "password"))%bool;
    eexists; split; try reflexivity.
  now rewrite !append_assoc.
Qed.

Lemma simple_line_agrees_with_normalizer_witness :
  let proxy := VObj [("host", VStr "h"); ("port", VNum 1);
                     ("hasAuth", VBool true);
                     ("username", VStr "u"); ("password", VStr "p")] in
  simple_line (VObj [("proxy", proxy); ("status", VStr "working")])
    = Ret "u:p@h:1"
  /\ normalizeProxy proxy = VStr "u:p@h:1".
Proof.
  intros proxy.
  destruct (simple_line_agrees_with_normalizer
              (VObj [("proxy", proxy); ("status", VStr "working")]))
    as (s & Hs & Hn); [reflexivity|].
  vm_compute in Hn. injection Hn as <-.
  split; [exact Hs | reflexivity].
Defined.

Lemma mapM_total {A B} (f : A -> outcome B) (g : A -> B) l :
  (forall x, In x l -> f x = Ret (g x)) -> mapM f l = Ret (map g l).
Proof.
  induction l as [|x l IH]; simpl; intros H; [reflexivity|].
  rewrite (H x (or_introl eq_refl)). simpl.
  rewrite IH by (intros y Hy; apply H; now right). reflexivity.
Qed.

Lemma mapM_returns {A B} (f : A -> outcome B) l :
  (forall x, In x l -> exists y, f x = Ret y) ->
  exists ys, mapM f l = Ret ys.
Proof.
  induction l as [|x l IH]; simpl; intros H; [now eexists|].
  destruct (H x (or_introl eq_refl)) as [y Hy]. rewrite Hy. simpl.
  destruct IH as [ys Hys]; [intros z Hz; apply H; now right|].
  rewrite Hys. now eexists.
Qed.

Lemma renderable_parts p :
  renderable p = true -> present p = true /\ present (JS.get' p "proxy") = true.
Proof. unfold renderable. intros H. now apply andb_prop in H. Qed.

(** X8: rendering never fails on a list of records that each hold a proxy
    record, in any of the three formats, simple or not. *)
Theorem formatOutput_total_on_records (E : env) (l : list jsval)
    (format : string) (simple : bool) :
  forallb renderable l = true ->
  supported format = true ->
  exists out, formatOutput E (VArr l) format simple = Ret out.
Proof.
  intros Hl Hf. rewrite forallb_forall in Hl.
  assert (Hs : exists ys, mapM simple_line l = Ret ys).
  { apply mapM_returns. intros p Hp.
    destruct (renderable_parts p (Hl p Hp)) as [Pp Pq].
    unfold simple_line. destruct p; try discriminate Pp;
      try (eexists; reflexivity);
      rewrite (get_of_present _ _ Pp); eexists; reflexivity. }
  assert (Hy : exists ys, mapM yaml_block l = Ret ys).
  { apply mapM_returns. intros p Hp.
    destruct (renderable_parts p (Hl p Hp)) as [Pp Pq].
    unfold yaml_block. rewrite (get_of_present _ _ Pp). cbn [bind].
    rewrite !(get_of_present _ _ Pq). eexists; reflexivity. }
  assert (Ht : exists ys, mapM txt_line l = Ret ys).
  { apply mapM_returns. intros p Hp.
    destruct (renderable_parts p (Hl p Hp)) as [Pp Pq].
    unfold txt_line. rewrite (get_of_present _ _ Pp). cbn [bind].
    rewrite !(get_of_present _ _ Pq). eexists; reflexivity. }
  destruct Hs as [ls Hs], Hy as [ly Hy], Ht as [lt Ht].
  unfold formatOutput. rewrite Hs, Hy, Ht. cbn [bind].
  unfold supported in Hf. cbn [existsb] in Hf.
  destruct simple;
    destruct (String.eqb format "json");
    destruct (String.eqb format "yaml");
    destruct (String.eqb format "txt");
    try discriminate Hf; eexists; reflexivity.
Qed.

Lemma formatOutput_total_on_records_witness :
  exists out,
    formatOutput Sample.world
      (VArr [Sample.verdict "1.1.1.1" 8080 "working";
             Sample.verdict "bad-entry" 0 "failed"]) "yaml" false = Ret out.
Proof.
  apply (formatOutput_total_on_records Sample.world
           [Sample.verdict "1.1.1.1" 8080 "working";
            Sample.verdict "bad-entry" 0 "failed"] "yaml" false);
    reflexivity.
Defined.

Lemma simple_lines_of_strings ts :
  mapM simple_line (map VStr ts) = Ret ts.
Proof.
  induction ts as [|t ts IH]; simpl; [reflexivity|]. now rewrite IH.
Qed.

(** X9: a list of tokens exported as simple text and read back from a file
    comes out unchanged, when every token is a line the normalizer
    leaves as it is. *)
Theorem export_simple_round_trip (E : env) (ts : list string)
    (path raw : string) :
  ts <> [] ->
  forallb is_line ts = true ->
  (forall t, In t ts -> normalizeProxy (VStr t) = VStr t) ->
  path <> EmptyString ->
  existsSync E (resolve_cwd E path) = true ->
  readFileSync E (resolve_cwd E path) = Ret raw ->
  detectFormat (Some path) (Str.join nl ts) = "txt" ->
  forall out,
    export E (VArr (map VStr ts)) "txt" true = Ret out ->
    Str.trim raw = out ->
    parseProxies E (VStr path) = Ret (map VStr ts).
Proof.
  intros Hne Hlines Hfix Hpath Hex Hread Hfmt out Hout Htrim.
  unfold export, formatOutput in Hout.
  rewrite simple_lines_of_strings in Hout. cbn in Hout.
  injection Hout as <-.
  rewrite (parse_text_file E path raw ts) by assumption.
  f_equal. apply map_ext_in. exact Hfix.
Qed.

Lemma export_simple_round_trip_witness :
  let ts := ["1.1.1.1:8080"; "u:p@2.2.2.2:80"] in
  let E := MoreSample.with_file "/work/out.txt"
             (Str.join nl ts ++ nl) Sample.world in
  parseProxies E (VStr "out.txt") = Ret (map VStr ts).
Proof.
  intros ts E.
  apply (export_simple_round_trip E ts "out.txt" (Str.join nl ts ++ nl))
    with (out := Str.join nl ts);
    try reflexivity; try discriminate.
  intros t [<-|[<-|[]]]; reflexivity.
Defined.

End RendererMore.

(* ================================================================== *)
(** ** Check Orchestrator: what a run consists of *)
(* ================================================================== *)

Module OrchestratorMore.

Import Sdk Props MoreProps.

(** The runs of the [try] block: no step; the result request alone, when
    it gets no response; or the request and its response.  A request is
    only made for the truthy result location of a successful submission
    response. *)
Lemma fetch_and_aggregate_run E res :
  let t := fst (fetch_and_aggregate E res) in
  t = []
  \/ exists data,
       ok res = true /\ json res = Ret data
       /\ JS.truthy (JS.get' data "result_url") = true
       /\ (t = [EvResultRequest (JS.get' data "result_url")]
           \/ t = [EvResultRequest (JS.get' data "result_url");
                   EvResultResponse]).
Proof.
  unfold fetch_and_aggregate.
  rewrite io_bind_lift.
  destruct (ok res) eqn:Hok; cbn [negb].
  2:{ left. destruct (text res); reflexivity. }
  rewrite io_bind_lift.
  destruct (json res) as [data|] eqn:Hjson; [|now left].
  rewrite io_bind_lift.
  destruct (JS.get data "result_url") as [ru|] eqn:Hget; [|now left].
  assert (Hru : JS.get' data "result_url" = ru)
    by (unfold JS.get'; now rewrite Hget).
  rewrite io_bind_lift.
  destruct (JS.truthy ru) eqn:Htruthy; cbn [negb]; [|now left].
  right. exists data. rewrite Hru. repeat split; try assumption.
  rewrite io_bind_emit. cbn [fst]. rewrite io_bind_lift.
  destruct (fetch_get E ru) as [resultRes|]; [|now left].
  right. rewrite io_bind_emit. cbn [fst]. rewrite io_bind_lift.
  destruct (negb (ok resultRes)); [reflexivity|].
  rewrite io_bind_lift. destruct (json resultRes); [|reflexivity].
  unfold lift. reflexivity.
Qed.

(** Every run of [check], by how far it got. *)
Lemma check_run E this input o :
  let r := check E this input o in
  let id := default EmptyString (effective_job_id E o) in
  let wants := (onProgress o && given (effective_job_id E o))%bool in
  (exists e, r = ([], Throw e)
             /\ (validate_options o = Throw e
                 \/ (validate_options o = Ret tt /\ ingest E input = Throw e)))
  \/ exists proxies,
       validate_options o = Ret tt /\ ingest E input = Ret proxies /\
       let req := EvSubmitRequest (request_url this) (apiKey this)
                    (request_body E o proxies) in
       let post := fetch_post E (request_url this)
                     (request_body E o proxies) in
       (exists e, post = Throw e /\ r = ([req], Throw e))
       \/ exists res,
            post = Ret res /\
            let body := fetch_and_aggregate E res in
            ((wants = false
              /\ r = (req :: EvSubmitResponse :: fst body, snd body))
             \/ (wants = true
                 /\ exists e, ws_new E (progress_url this id) = Throw e
                              /\ r = ([req; EvSubmitResponse], Throw e))
             \/ (wants = true
                 /\ ws_new E (progress_url this id) = Ret tt
                 /\ r = ((req :: EvSubmitResponse :: progress_steps this id)
                         ++ fst body ++ [EvWsClose], snd body)%list)).
Proof.
  unfold check, validate_options, request_url, request_body,
    effective_job_id, progress_steps, progress_url.
  cbv zeta.
  rewrite io_bind_lift.
  destruct (validate_type _) as [[]|e]; cbn [bind];
    [|left; exists e; split; [reflexivity | now left]].
  rewrite io_bind_lift.
  match goal with
  | |- context [if ?b then validate_customUrls ?i ?l else Ret tt] =>
      destruct (if b then validate_customUrls i l else Ret tt) as [[]|e]
  end; [|left; exists e; split; [reflexivity | now left]].
  rewrite io_bind_lift.
  destruct (ingest E input) as [proxies|e];
    [|left; exists e; split; [reflexivity | right; split; reflexivity]].
  right. exists proxies. split; [reflexivity|]. split; [reflexivity|].
  rewrite io_bind_emit, io_bind_lift.
  match goal with
  | |- context [fetch_post E ?u ?b] => destruct (fetch_post E u b) as [res|e]
  end; [|left; exists e; split; reflexivity].
  right. exists res. split; [reflexivity|].
  rewrite io_bind_emit. unfold open_progress.
  match goal with
  | |- context [if ?w then _ else lift (Ret false)] => destruct w
  end.
  - rewrite io_bind_lift.
    match goal with
    | |- context [ws_new E ?u] => destruct (ws_new E u) as [[]|e]
    end.
    + right; right. split; [reflexivity|]. split; [reflexivity|].
      rewrite !io_bind_emit. cbn [io_bind lift fst snd].
      destruct (fetch_and_aggregate E res) as [t r]. reflexivity.
    + right; left. split; [reflexivity|]. exists e. split; reflexivity.
  - left. split; [reflexivity|].
    cbn [io_bind lift fst snd].
    destruct (fetch_and_aggregate E res) as [t r]. cbn.
    now rewrite app_nil_r.
Qed.

Lemma fetch_steps_only E res e :
  In e (fst (fetch_and_aggregate E res)) -> is_fetch_step e = true.
Proof.
  intros H. pose proof (OrchestratorFacts.fetch_and_aggregate_trace E res) as F.
  rewrite forallb_forall in F. now apply F.
Qed.

Lemma ingest_not_empty E input proxies :
  ingest E input = Ret proxies -> proxies <> [].
Proof.
  unfold ingest.
  match goal with
  | |- context [bind ?m _] => destruct m as [l|]
  end; simpl; [|discriminate].
  destruct l; simpl; [discriminate|].
  intros H. injection H as <-. discriminate.
Qed.

(** X10: nothing is sent before the options and the input have passed:
    a refused option or an input without proxies ends [check] with no
    step taken, and any step taken means both were accepted. *)
Theorem check_validates_before_network (E : env) (this : ClearProxy)
    (input : jsval) (o : options) :
  (forall e, validate_options o = Throw e ->
             check E this input o = ([], Throw e))
  /\ (forall e, validate_options o = Ret tt -> ingest E input = Throw e ->
                check E this input o = ([], Throw e))
  /\ (fst (check E this input o) <> [] ->
      validate_options o = Ret tt
      /\ exists proxies, ingest E input = Ret proxies /\ proxies <> []).
Proof.
  pose proof (check_run E this input o) as R. cbv zeta in R.
  destruct R as [(e0 & Hr & Hwhy)|(proxies & Hv & Hi & _)].
  - split; [|split].
    + intros e He. rewrite Hr. destruct Hwhy as [H|[H _]]; congruence.
    + intros e Hv He. rewrite Hr. destruct Hwhy as [H|[_ H]]; congruence.
    + rewrite Hr. intros H. now contradiction H.
  - split; [|split].
    + intros e He. congruence.
    + intros e _ He. congruence.
    + intros _. split; [exact Hv|]. exists proxies. split; [exact Hi|].
      exact (ingest_not_empty E input proxies Hi).
Qed.

Lemma validate_customUrls_offender idx good bad rest :
  forallb rule_ok good = true ->
  present bad = true ->
  rule_ok bad = false ->
  validate_customUrls idx (good ++ bad :: rest)
  = Throw (Exn Error
      ("Custom URL at index " ++ Str.of_Z (idx + Z.of_nat (List.length good))
       ++ (if JS.truthy (JS.get' bad "url")
           then ": 'url' must be a string"
           else " is missing 'url' field"))).
Proof.
  intros Hgood Hp Hbad. revert idx.
  induction good as [|r good IH]; intros idx.
  - cbn [app List.length Z.of_nat]. rewrite Z.add_0_r.
    cbn [validate_customUrls].
    rewrite (AggregatorFacts.get_present _ _ Hp). cbn [bind].
    unfold rule_ok in Hbad. rewrite Hp in Hbad. cbn [andb] in Hbad.
    destruct (JS.truthy (JS.get' bad "url")); cbn [negb andb] in *;
      [rewrite Hbad|]; reflexivity.
  - cbn [forallb] in Hgood. apply andb_prop in Hgood as [Hr Hgood].
    unfold rule_ok in Hr. apply andb_prop in Hr as [Hr Hs].
    apply andb_prop in Hr as [Hpr Ht].
    cbn [app validate_customUrls].
    rewrite (AggregatorFacts.get_present _ _ Hpr). cbn [bind].
    rewrite Ht, Hs. cbn [negb]. rewrite (IH Hgood).
    replace (idx + 1 + Z.of_nat (List.length good))
      with (idx + Z.of_nat (List.length (r :: good)))
      by (cbn [List.length]; lia).
    reflexivity.
Qed.

(** X11: a malformed custom URL rule ends [check] before any step, with an
    error that names the index of the first offending rule. *)
Theorem check_names_first_bad_rule (E : env) (this : ClearProxy)
    (input : jsval) (o : options) (good rest : list jsval) (bad : jsval) :
  existsb (String.eqb (default "http" (type o))) allowedTypes = true ->
  customUrls o = Some (good ++ bad :: rest)%list ->
  forallb rule_ok good = true ->
  present bad = true ->
  rule_ok bad = false ->
  check E this input o
  = ([], Throw (Exn Error
       ("Custom URL at index " ++ Str.of_Z (Z.of_nat (List.length good))
        ++ (if JS.truthy (JS.get' bad "url")
            then ": 'url' must be a string"
            else " is missing 'url' field")))).
Proof.
  intros Ht Hc Hgood Hp Hbad.
  assert (V : validate_options o
              = Throw (Exn Error
                  ("Custom URL at index "
                   ++ Str.of_Z (Z.of_nat (List.length good))
                   ++ (if JS.truthy (JS.get' bad "url")
                       then ": 'url' must be a string"
                       else " is missing 'url' field")))).
  { unfold validate_options, validate_type. rewrite Ht, Hc. cbn [bind default].
    assert (L : (0 <? Z.of_nat (List.length (good ++ bad :: rest))) = true).
    { apply Z.ltb_lt. rewrite length_app. cbn [List.length]. lia. }
    rewrite L. now rewrite validate_customUrls_offender. }
  pose proof (check_run E this input o) as R. cbv zeta in R.
  destruct R as [(e0 & Hr & [H|[H _]])|(proxies & Hv & _)]; congruence.
Qed.

Lemma check_names_first_bad_rule_witness :
  check Sample.world Sample.client Sample.two_proxies
    {| region := None; timeout := None; type := None;
       customUrls := Some [VObj [("url", VStr "https://discord.com")];
                           VObj [("requiredStatusCodes", VArr [VNum 200])]];
       jobId := None; onProgress := false |}
  = ([], Throw (Exn Error "Custom URL at index 1 is missing 'url' field")).
Proof.
  apply (check_names_first_bad_rule Sample.world Sample.client
           Sample.two_proxies _
           [VObj [("url", VStr "https://discord.com")]] []
           (VObj [("requiredStatusCodes", VArr [VNum 200])]));
    reflexivity.
Defined.

(** Case analysis on the membership of a step in an explicit trace. *)
Ltac step_cases H :=
  repeat match type of H with
         | In _ (_ ++ _)%list => apply in_app_or in H as [H|H]
         | In _ (_ :: _) => destruct H as [H|H]
         | In _ [] => destruct H
         | _ \/ _ => destruct H as [H|H]
         | False => destruct H
         end.

Ltac not_a_fetch_step H :=
  match type of H with
  | In ?e (fst (fetch_and_aggregate ?E ?res)) =>
      apply (fetch_steps_only E res e) in H; discriminate H
  end.

(** X12: the submission and the progress subscription of a run agree on the
    job identifier: the one the caller gave, or else the generated one. *)
Theorem check_job_id_agreement (E : env) (this : ClearProxy)
    (input : jsval) (o : options) (url key : string) (body : jsval)
    (u : string) :
  let t := fst (check E this input o) in
  In (EvSubmitRequest url key body) t ->
  In (EvWsOpen u) t ->
  exists id,
    id <> EmptyString
    /\ JS.get' body "jobId" = VStr id
    /\ u = progress_url this id
    /\ (given (jobId o) = true -> jobId o = Some id)
    /\ (given (jobId o) = false ->
        id = "sdk_" ++ random_token E ++ "_" ++ Str.of_Z (now E)).
Proof.
  intros t Hreq Hopen. subst t.
  pose proof (check_run E this input o) as R. cbv zeta in R.
  destruct R as [(e0 & Hr & _)|(proxies & _ & _ & [(e & _ & Hr)|(res & _ & R)])].
  - rewrite Hr in Hopen. destruct Hopen.
  - rewrite Hr in Hopen. cbn [fst] in Hopen.
    step_cases Hopen; discriminate Hopen.
  - destruct R as [(_ & Hr)|[(_ & e & _ & Hr)|(Hw & _ & Hr)]];
      rewrite Hr in Hreq, Hopen; cbn [fst] in Hreq, Hopen.
    + step_cases Hopen; try discriminate Hopen. not_a_fetch_step Hopen.
    + step_cases Hopen; discriminate Hopen.
    + unfold progress_steps in Hreq, Hopen.
      step_cases Hreq; try discriminate Hreq; try not_a_fetch_step Hreq.
      step_cases Hopen; try discriminate Hopen; try not_a_fetch_step Hopen.
      injection Hreq as <- <- <-. injection Hopen as <-.
      apply andb_prop in Hw as [Hon Hgiven].
      unfold request_body, effective_job_id in *.
      rewrite Hon in *. cbn [andb] in *.
      destruct (given (jobId o)) eqn:G; cbn [negb] in *.
      * destruct (jobId o) as [id|] eqn:J; [|discriminate G].
        exists id. cbn [default or_undefined given] in *.
        destruct id; [discriminate G|].
        repeat split; try reflexivity; try discriminate.
      * eexists. repeat split; try reflexivity; try discriminate.
Qed.

Lemma check_job_id_agreement_witness :
  exists body,
    In (EvSubmitRequest "https://api.clearproxy.io/check" "clearpx_key" body)
       (fst (check Sample.world Sample.client Sample.two_proxies
               MoreSample.with_job))
    /\ JS.get' body "jobId" = VStr "job-7"
    /\ In (EvWsOpen "wss://api.clearproxy.io/ws?jobId=job-7")
          (fst (check Sample.world Sample.client Sample.two_proxies
                  MoreSample.with_job)).
Proof.
  eexists. split; [left; reflexivity|].
  assert (Hopen : In (EvWsOpen "wss://api.clearproxy.io/ws?jobId=job-7")
                    (fst (check Sample.world Sample.client Sample.two_proxies
                            MoreSample.with_job)))
    by (right; right; left; reflexivity).
  split; [|exact Hopen].
  destruct (check_job_id_agreement Sample.world Sample.client
              Sample.two_proxies MoreSample.with_job _ _ _ _
              (or_introl eq_refl) Hopen)
    as (id & _ & Hbody & _ & Hgiven & _).
  rewrite Hbody. f_equal.
  specialize (Hgiven eq_refl). now injection Hgiven as <-.
Defined.

(** X13: every submission goes to the check endpoint with the client's key
    and carries a non-empty list of string tokens, one of the three
    proxy types and the timeout asked for (4000 by default). *)
Theorem check_request_invariant (E : env) (this : ClearProxy)
    (input : jsval) (o : options) (url key : string) (body : jsval) :
  In (EvSubmitRequest url key body) (fst (check E this input o)) ->
  url = baseURL this ++ "/check"
  /\ key = apiKey this
  /\ (exists proxies,
        JS.get' body "proxies" = VArr proxies
        /\ proxies <> []
        /\ forallb JS.is_string proxies = true)
  /\ (exists ty, JS.get' body "type" = VStr ty /\ In ty allowedTypes)
  /\ JS.get' body "timeout" = VNum (default 4000 (timeout o)).
Proof.
  intros Hreq.
  pose proof (check_run E this input o) as R. cbv zeta in R.
  destruct R as [(e0 & Hr & _)|(proxies & Hv & Hi & R)].
  { rewrite Hr in Hreq. destruct Hreq. }
  assert (Hbody : EvSubmitRequest url key body
                  = EvSubmitRequest (request_url this) (apiKey this)
                      (request_body E o proxies)).
  { destruct R as [(e & _ & Hr)|(res & _ & [(_ & Hr)|[(_ & e & _ & Hr)
                                                   |(_ & _ & Hr)]])];
      rewrite Hr in Hreq; cbn [fst] in Hreq; unfold progress_steps in Hreq;
      step_cases Hreq; try discriminate Hreq; try not_a_fetch_step Hreq;
      now symmetry. }
  injection Hbody as -> -> ->.
  split; [reflexivity|]. split; [reflexivity|]. split; [|split].
  - exists proxies. split; [reflexivity|].
    split; [exact (ingest_not_empty E input proxies Hi)|].
    unfold ingest in Hi.
    destruct input; try discriminate Hi;
      match type of Hi with
      | bind ?m _ = _ => destruct m as [l|] eqn:P
      end; try discriminate Hi; cbn [bind] in Hi;
      (destruct (Z.of_nat (List.length l) =? 0); [discriminate Hi|]);
      injection Hi as <-.
    + unfold try_catch in P.
      destruct (Utils.parseProxies E (VStr s)) as [l'|] eqn:P'.
      * injection P as <-. exact (IngestorMore.parseProxies_strings _ _ _ P').
      * injection P as <-. reflexivity.
    + exact (IngestorMore.parseProxies_strings _ _ _ P).
  - exists (default "http" (type o)). split; [reflexivity|].
    unfold validate_options, validate_type in Hv.
    destruct (existsb _ allowedTypes) eqn:T; [|discriminate Hv].
    apply existsb_exists in T as (ty & Hin & Heq).
    apply String.eqb_eq in Heq. now subst ty.
  - reflexivity.
Qed.

Lemma check_request_invariant_witness :
  exists body proxies,
    In (EvSubmitRequest "https://api.clearproxy.io/check" "clearpx_key" body)
       (fst (check Sample.world Sample.client (VStr "proxies.json")
               no_options))
    /\ JS.get' body "proxies" = VArr proxies /\ proxies <> [].
Proof.
  eexists.
  assert (Hin : In (EvSubmitRequest "https://api.clearproxy.io/check"
                      "clearpx_key" _)
                  (fst (check Sample.world Sample.client (VStr "proxies.json")
                          no_options)))
    by (left; reflexivity).
  destruct (check_request_invariant _ _ _ _ _ _ _ Hin)
    as (_ & _ & (proxies & Hp & Hne & _) & _).
  exists proxies. split; [exact Hin|]. split; [exact Hp | exact Hne].
Defined.

(** X14: a run submits at most once and fetches the result at most once,
    and it asks for the result only at the truthy result location that
    a successful submission response named. *)
Theorem check_fetches_result_once (E : env) (this : ClearProxy)
    (input : jsval) (o : options) :
  let t := fst (check E this input o) in
  (count is_submit t <= 1)%nat
  /\ (count is_result_request t <= 1)%nat
  /\ forall u, In (EvResultRequest u) t ->
       exists proxies res data,
         ingest E input = Ret proxies
         /\ fetch_post E (request_url this) (request_body E o proxies)
            = Ret res
         /\ ok res = true /\ json res = Ret data
         /\ JS.get' data "result_url" = u /\ JS.truthy u = true.
Proof.
  intros t. subst t.
  pose proof (check_run E this input o) as R. cbv zeta in R.
  destruct R as [(e0 & Hr & _)
                |(proxies & _ & Hi & [(e & _ & Hr)|(res & Hpost & R)])].
  - rewrite Hr. cbn. repeat split; auto. intros u [].
  - rewrite Hr. cbn. repeat split; auto.
    intros u [H|[]]; discriminate H.
  - assert (Hbody :
        forall pre post,
          (forall e, In e pre -> is_submit e = false) ->
          (forall e, In e post -> is_submit e = false) ->
          (forall e, In e pre -> is_result_request e = false) ->
          (forall e, In e post -> is_result_request e = false) ->
          let t := (EvSubmitRequest (request_url this) (apiKey this)
                      (request_body E o proxies)
                    :: pre ++ fst (fetch_and_aggregate E res) ++ post)%list in
          (count is_submit t <= 1)%nat
          /\ (count is_result_request t <= 1)%nat
          /\ forall u, In (EvResultRequest u) t ->
               exists proxies res data,
                 ingest E input = Ret proxies
                 /\ fetch_post E (request_url this)
                      (request_body E o proxies) = Ret res
                 /\ ok res = true /\ json res = Ret data
                 /\ JS.get' data "result_url" = u /\ JS.truthy u = true).
    { intros pre post Sp Sq Rp Rq t.
      assert (F : forall f l, (forall e, In e l -> f e = false) ->
                              filter f l = @nil event).
      { intros f l H. induction l as [|x l IH]; [reflexivity|].
        simpl. rewrite (H x (or_introl eq_refl)).
        apply IH. intros y Hy. apply H. now right. }
      subst t. unfold count. cbn [filter is_submit is_result_request].
      rewrite !filter_app, (F _ _ Sp), (F _ _ Sq), (F _ _ Rp), (F _ _ Rq).
      destruct (fetch_and_aggregate_run E res)
        as [Hb|(data & Hok & Hj & Htr & [Hb|Hb])]; rewrite Hb; cbn;
        (split; [auto|]); (split; [auto|]); intros u Hu;
        step_cases Hu; try discriminate Hu;
        try (apply Rp in Hu; discriminate Hu);
        try (apply Rq in Hu; discriminate Hu);
        injection Hu as <-;
        exists proxies, res, data; repeat split; assumption. }
    destruct R as [(_ & Hr)|[(_ & e & _ & Hr)|(_ & _ & Hr)]].
    + rewrite Hr. cbn [fst].
      specialize (Hbody [EvSubmitResponse] []).
      cbv zeta in Hbody. rewrite app_nil_r in Hbody. apply Hbody;
        intros e He; step_cases He; subst; reflexivity.
    + rewrite Hr. cbn. repeat split; auto.
      intros u Hu. step_cases Hu; discriminate Hu.
    + rewrite Hr. cbn [fst].
      specialize (Hbody (EvSubmitResponse
                         :: progress_steps this
                              (default EmptyString (effective_job_id E o)))
                        [EvWsClose]).
      apply Hbody; unfold progress_steps;
        intros e He; step_cases He; subst; reflexivity.
Qed.

(** X15: without a progress callback [check] opens no subscription, even for
    a caller who names a job identifier. *)
Theorem check_without_progress (E : env) (this : ClearProxy)
    (input : jsval) (o : options) :
  onProgress o = false ->
  let t := fst (check E this input o) in
  opens t = 0%nat /\ closes t = 0%nat.
Proof.
  intros Hoff t. subst t.
  pose proof (check_run E this input o) as R. cbv zeta in R.
  rewrite Hoff in R. cbn [andb] in R.
  destruct R as [(e0 & Hr & _)
                |(proxies & _ & _ & [(e & _ & Hr)|(res & _ & R)])].
  - rewrite Hr. split; reflexivity.
  - rewrite Hr. split; reflexivity.
  - destruct R as [(_ & Hr)|[(H & _)|(H & _)]]; try discriminate H.
    rewrite Hr. cbn [fst].
    destruct (OrchestratorFacts.fetch_steps_quiet _
                (OrchestratorFacts.fetch_and_aggregate_trace E res))
      as (Ho & Hc & _).
    unfold opens, closes. cbn [filter is_open is_close].
    rewrite Ho, Hc. split; reflexivity.
Qed.

Lemma check_without_progress_witness :
  let o := {| region := None; timeout := None; type := None;
              customUrls := None; jobId := Some "job-7";
              onProgress := false |} in
  opens (fst (check Sample.world Sample.client Sample.two_proxies o)) = 0%nat.
Proof.
  intros o.
  apply (check_without_progress Sample.world Sample.client
           Sample.two_proxies o eq_refl).
Defined.

End OrchestratorMore.

(* ================================================================== *)
(** ** Result Aggregator: partition, lookup and summary *)
(* ================================================================== *)

Module AggregatorMore.

Import Sdk Props MoreProps AggregatorFacts.

Lemma statuses_exclusive p :
  has_status "working" p = true -> has_status "failed" p = true -> False.
Proof.
  unfold has_status, JS.strict_eq_str.
  destruct (JS.get' p "status"); try discriminate.
  intros Hw Hf. apply String.eqb_eq in Hw, Hf. congruence.
Qed.

Lemma filter_lengths {A} (f g : A -> bool) l :
  (forall x, f x = true -> g x = true -> False) ->
  (List.length (filter f l) + List.length (filter g l) <= List.length l)%nat
  /\ (forallb (fun x => f x || g x)%bool l = true ->
      (List.length (filter f l) + List.length (filter g l))%nat
      = List.length l).
Proof.
  intros Hex. induction l as [|x l [IHle IHeq]]; simpl; [auto|].
  destruct (f x) eqn:Fx, (g x) eqn:Gx; simpl.
  - destruct (Hex x Fx Gx).
  - split; [lia|]. intros H. rewrite <- (IHeq H). lia.
  - split; [lia|]. intros H. rewrite <- (IHeq H). lia.
  - split; [lia|]. discriminate.
Qed.

(** X16: the working and failed views of a result are sublists of its
    verdicts with no verdict in both; together they are never longer
    than the verdict list, and exactly as long when every status is
    working or failed. *)
Theorem aggregate_partition (resultData data : jsval) (ps : list jsval) :
  present resultData = true ->
  present data = true ->
  verdicts_of resultData = Some ps ->
  forallb present ps = true ->
  exists r working failed,
    aggregate resultData data = Ret r
    /\ JS.get' r "working" = VArr working
    /\ JS.get' r "failed" = VArr failed
    /\ (forall p, In p working -> In p ps /\ ~ In p failed)
    /\ (forall p, In p failed -> In p ps)
    /\ (List.length working + List.length failed <= List.length ps)%nat
    /\ (forallb (fun p => has_status "working" p || has_status "failed" p)%bool
          ps = true ->
        (List.length working + List.length failed)%nat = List.length ps).
Proof.
  intros Hr Hd Hv Hps.
  assert (A : exists r,
             aggregate resultData data = Ret r
             /\ JS.get' r "working" = VArr (filter (has_status "working") ps)
             /\ JS.get' r "failed" = VArr (filter (has_status "failed") ps)).
  { unfold aggregate.
    rewrite !(get_present resultData _ Hr), (get_present data _ Hd).
    rewrite (filter_status_spec _ ps "working" Hr Hv Hps),
            (filter_status_spec _ ps "failed" Hr Hv Hps).
    cbn [bind].
    destruct (JS.truthy (JS.get' resultData "custom_url_validation"));
      cbn [bind]; eexists; repeat split. }
  destruct A as (r & Ha & Hw & Hf).
  exists r, (filter (has_status "working") ps),
    (filter (has_status "failed") ps).
  destruct (filter_lengths (has_status "working") (has_status "failed") ps
              statuses_exclusive) as [Hle Heq].
  split; [exact Ha|]. split; [exact Hw|]. split; [exact Hf|].
  split; [|split; [|split; [exact Hle | exact Heq]]].
  - intros p H. split; [now apply filter_In in H|].
    intros Hin. apply filter_In in H as [_ H1]. apply filter_In in Hin as [_ H2].
    exact (statuses_exclusive p H1 H2).
  - intros p H. now apply filter_In in H.
Qed.

Lemma aggregate_partition_witness :
  exists r working failed,
    aggregate Sample.payload (VObj []) = Ret r
    /\ JS.get' r "working" = VArr working
    /\ JS.get' r "failed" = VArr failed
    /\ (List.length working + List.length failed)%nat = 2%nat.
Proof.
  destruct (aggregate_partition Sample.payload (VObj [])
              [ Sample.verdict "1.1.1.1" 8080 "working";
                Sample.verdict "bad-entry" 0 "failed" ])
    as (r & w & f & Ha & Hw & Hf & _ & _ & _ & Heq); try reflexivity.
  exists r, w, f. repeat split; try assumption. now apply Heq.
Defined.

(** *** filterByCustomUrl *)

Lemma find_by_url_first u before r after :
  forallb present (before ++ r :: after) = true ->
  forallb (fun b => negb (has_url u b)) before = true ->
  has_url u r = true ->
  find_by_url u (before ++ r :: after) = Ret r.
Proof.
  induction before as [|b before IH]; cbn [app forallb find_by_url];
    intros Hp Hb Hr.
  - apply andb_prop in Hp as [Hp _].
    rewrite (get_present _ _ Hp). cbn [bind].
    unfold has_url in Hr. now rewrite Hr.
  - apply andb_prop in Hp as [Hp Hrest]. apply andb_prop in Hb as [Hb Hbs].
    rewrite (get_present _ _ Hp). cbn [bind].
    unfold has_url in Hb. apply negb_true_iff in Hb. rewrite Hb.
    now apply IH.
Qed.

Lemma find_by_url_none u l :
  forallb present l = true ->
  forallb (fun r => negb (has_url u r)) l = true ->
  find_by_url u l = Ret VUndefined.
Proof.
  induction l as [|r l IH]; cbn [forallb find_by_url]; intros Hp Hn;
    [reflexivity|].
  apply andb_prop in Hp as [Hp Hrest]. apply andb_prop in Hn as [Hn Hns].
  rewrite (get_present _ _ Hp). cbn [bind].
  unfold has_url in Hn. apply negb_true_iff in Hn. rewrite Hn.
  now apply IH.
Qed.

Lemma first_with_url u l :
  existsb (has_url u) l = true ->
  exists before r after,
    l = (before ++ r :: after)%list
    /\ forallb (fun b => negb (has_url u b)) before = true
    /\ has_url u r = true.
Proof.
  induction l as [|x l IH]; cbn [existsb]; [discriminate|].
  destruct (has_url u x) eqn:Hx; cbn [orb].
  - intros _. exists [], x, l. repeat split. exact Hx.
  - intros H. destruct (IH H) as (before & r & after & -> & Hb & Hr).
    exists (x :: before), r, after. cbn [app forallb]. rewrite Hx, Hb.
    repeat split. exact Hr.
Qed.

Lemma has_url_truthy u r : has_url u r = true -> JS.truthy r = true.
Proof.
  unfold has_url. destruct r; simpl; try discriminate; reflexivity.
Qed.

(** X17: filterByCustomUrl returns the successful proxies of the first entry
    whose url is the one asked for (an empty list when the entry has
    none), fails with UrlNotFoundError when no entry has that url, and so
    succeeds for every url the report lists. *)
Theorem filterByCustomUrl_first_match (result : jsval) (u : string)
    (l : list jsval) :
  present result = true ->
  JS.truthy (JS.get' result "custom_url_validation") = true ->
  perUrlResults (JS.get' result "custom_url_validation") = VArr l ->
  forallb present l = true ->
  (forall before r after,
      l = (before ++ r :: after)%list ->
      forallb (fun b => negb (has_url u b)) before = true ->
      has_url u r = true ->
      filterByCustomUrl result u
      = Ret (JS.or (JS.get' r "successful_proxies") (VArr [])))
  /\ (forallb (fun r => negb (has_url u r)) l = true ->
      filterByCustomUrl result u = Throw (UrlNotFoundError u))
  /\ (existsb (has_url u) l = true ->
      exists v, filterByCustomUrl result u = Ret v).
Proof.
  intros Hres Hcuv Hper Hp.
  assert (First : forall before r after,
             l = (before ++ r :: after)%list ->
             forallb (fun b => negb (has_url u b)) before = true ->
             has_url u r = true ->
             filterByCustomUrl result u
             = Ret (JS.or (JS.get' r "successful_proxies") (VArr []))).
  { intros before r after -> Hb Hr.
    unfold filterByCustomUrl. rewrite (get_present _ _ Hres). cbn [bind].
    rewrite Hcuv. cbn [negb]. rewrite Hper.
    rewrite (find_by_url_first u before r after Hp Hb Hr). cbn [bind].
    rewrite (has_url_truthy u r Hr). cbn [negb].
    assert (Pr : present r = true).
    { rewrite forallb_forall in Hp. apply Hp, in_or_app. right. now left. }
    rewrite (get_present _ _ Pr). reflexivity. }
  split; [exact First | split].
  - intros Hn. unfold filterByCustomUrl.
    rewrite (get_present _ _ Hres). cbn [bind].
    rewrite Hcuv. cbn [negb]. rewrite Hper.
    rewrite (find_by_url_none u l Hp Hn). reflexivity.
  - intros Hex.
    destruct (first_with_url u l Hex) as (before & r & after & Hl & Hb & Hr).
    eexists. exact (First before r after Hl Hb Hr).
Qed.

Lemma filterByCustomUrl_first_match_witness :
  filterByCustomUrl MoreSample.result_with_report "https://discord.com"
    = Ret (VArr [VStr "1.1.1.1:80"; VStr "2.2.2.2:80"; VStr "3.3.3.3:80"])
  /\ filterByCustomUrl MoreSample.result_with_report "https://www.google.com"
    = Ret (VArr [])
  /\ filterByCustomUrl MoreSample.result_with_report "https://example.org"
    = Throw (UrlNotFoundError "https://example.org").
Proof.
  pose (l := match JS.get' MoreSample.report "per_url_summary" with
             | VArr l => l
             | _ => []
             end).
  assert (H : forall u,
             (forall before r after,
                 l = (before ++ r :: after)%list ->
                 forallb (fun b => negb (has_url u b)) before = true ->
                 has_url u r = true ->
                 filterByCustomUrl MoreSample.result_with_report u
                 = Ret (JS.or (JS.get' r "successful_proxies") (VArr [])))
             /\ (forallb (fun r => negb (has_url u r)) l = true ->
                 filterByCustomUrl MoreSample.result_with_report u
                 = Throw (UrlNotFoundError u))).
  { intros u.
    destruct (filterByCustomUrl_first_match MoreSample.result_with_report u l)
      as (H1 & H2 & _); try reflexivity.
    split; assumption. }
  split; [|split].
  - destruct (H "https://discord.com") as [H1 _].
    exact (H1 [] _ _ eq_refl eq_refl eq_refl).
  - destruct (H "https://www.google.com") as [H1 _].
    exact (H1 [_] _ [] eq_refl eq_refl eq_refl).
  - destruct (H "https://example.org") as [_ H2]. exact (H2 eq_refl).
Defined.

(** *** getCustomUrlSummary *)

Lemma project_entries_map l :
  forallb present l = true -> mapM project_entry l = Ret (map projection l).
Proof.
  intros Hp. apply RendererMore.mapM_total. intros r Hr.
  rewrite forallb_forall in Hp. specialize (Hp r Hr).
  unfold project_entry, projection.
  rewrite !(get_present _ _ Hp). reflexivity.
Qed.

(** X18: for well-formed entries the summary counts the entries, adds up
    their counters (an absent counter counts for zero), reports the sum
    of both totals as the number tested, and lists the projection of
    every entry in the order of the report. *)
Theorem getCustomUrlSummary_totals
    (js_add : jsval -> jsval -> jsval) (js_gt_zero : jsval -> bool)
    (percent_toFixed2 : jsval -> jsval -> string)
    (result : jsval) (l : list jsval) :
  (forall a b, js_add (VNum a) (VNum b) = VNum (a + b)) ->
  present result = true ->
  JS.truthy (JS.get' result "custom_url_validation") = true ->
  perUrlResults (JS.get' result "custom_url_validation") = VArr l ->
  forallb entry_ok l = true ->
  exists r,
    getCustomUrlSummary js_add js_gt_zero percent_toFixed2 result = Ret r
    /\ JS.get' r "total_urls" = VNum (Z.of_nat (List.length l))
    /\ JS.get' r "total_success" = VNum (total "success_count" l)
    /\ JS.get' r "total_failed" = VNum (total "failed_count" l)
    /\ JS.get' r "total_proxies_tested"
       = VNum (total "success_count" l + total "failed_count" l)
    /\ JS.get' r "per_url" = VArr (map projection l).
Proof.
  intros Hadd Hres Hcuv Hper Hok.
  destruct (entries_ok_split l Hok) as (Hs & Hf & Hp).
  unfold getCustomUrlSummary.
  rewrite (get_present _ _ Hres). cbn [bind]. rewrite Hcuv. cbn [negb].
  rewrite Hper.
  rewrite (reduce_count_total js_add Hadd "success_count" l 0 Hs).
  rewrite (reduce_count_total js_add Hadd "failed_count" l 0 Hf).
  cbn [bind]. rewrite (project_entries_map l Hp). cbn [bind].
  rewrite !Z.add_0_l, Hadd.
  eexists. split; [reflexivity|]. repeat split.
Qed.

Lemma getCustomUrlSummary_totals_witness :
  exists r,
    getCustomUrlSummary Sample.add Sample.gt_zero Sample.percent
      MoreSample.result_with_report = Ret r
    /\ JS.get' r "total_urls" = VNum 2
    /\ JS.get' r "total_success" = VNum 3
    /\ JS.get' r "total_failed" = VNum 5
    /\ JS.get' r "total_proxies_tested" = VNum 8.
Proof.
  destruct (getCustomUrlSummary_totals Sample.add Sample.gt_zero
              Sample.percent MoreSample.result_with_report
              (match JS.get' MoreSample.report "per_url_summary" with
               | VArr l => l
               | _ => []
               end))
    as (r & Hr & Hn & Hs & Hf & Ht & _); try reflexivity.
  exists r. repeat split; assumption.
Defined.

(** *** From [check] to the summary and the lookup *)

Lemma or_or_null_falsy x y :
  JS.truthy (JS.or x (JS.or y VNull)) = false
  <-> JS.truthy x = false /\ JS.truthy y = false.
Proof.
  unfold JS.or. destruct (JS.truthy x) eqn:X.
  - rewrite X. split; [discriminate | intros [H _]; discriminate H].
  - destruct (JS.truthy y) eqn:Y.
    + rewrite Y. split; [discriminate | intros [_ H]; discriminate H].
    + split; auto.
Qed.

(** The object [aggregate] returns, as far as custom validation goes. *)
Lemma aggregate_custom_validation resultData data r :
  aggregate resultData data = Ret r ->
  exists props,
    r = VObj props
    /\ JS.lookup "custom_url_validation" props
       = JS.or (JS.get' resultData "custom_url_validation")
           (JS.or (JS.get' data "custom_url_validation") VNull).
Proof.
  unfold aggregate.
  destruct (JS.get resultData "custom_url_validation") as [cr|] eqn:Gr;
    cbn [bind]; [|discriminate].
  assert (Er : JS.get' resultData "custom_url_validation" = cr)
    by (unfold JS.get'; now rewrite Gr).
  rewrite Er.
  assert (Shape : forall v,
             bind (JS.get resultData "summary")
               (fun summary =>
                bind (JS.get resultData "metadata")
                  (fun metadata =>
                   bind (JS.get resultData "proxies")
                     (fun proxies =>
                      bind (filter_status resultData "working")
                        (fun working =>
                         bind (filter_status resultData "failed")
                           (fun failed =>
                            Ret (VObj
                              [("summary", JS.or summary (VObj []));
                               ("metadata", JS.or metadata (VObj []));
                               ("proxies", JS.or proxies (VArr []));
                               ("working", working);
                               ("failed", failed);
                               ("custom_url_validation", v)]))))))
             = Ret r ->
             exists props,
               r = VObj props
               /\ JS.lookup "custom_url_validation" props = v).
  { intros v.
    destruct (JS.get resultData "summary"); cbn [bind]; [|discriminate].
    destruct (JS.get resultData "metadata"); cbn [bind]; [|discriminate].
    destruct (JS.get resultData "proxies"); cbn [bind]; [|discriminate].
    destruct (filter_status resultData "working"); cbn [bind];
      [|discriminate].
    destruct (filter_status resultData "failed"); cbn [bind];
      [|discriminate].
    intros H. injection H as <-. eexists. split; reflexivity. }
  destruct (JS.truthy cr) eqn:Tr; cbn [bind].
  - intros H. destruct (Shape _ H) as (props & -> & Hl).
    exists props. split; [reflexivity|].
    rewrite Hl. unfold JS.or. now rewrite Tr.
  - destruct (JS.get data "custom_url_validation") as [cd|] eqn:Gd;
      cbn [bind]; [|discriminate].
    assert (Ed : JS.get' data "custom_url_validation" = cd)
      by (unfold JS.get'; now rewrite Gd).
    rewrite Ed.
    intros H. destruct (Shape _ H) as (props & -> & Hl).
    exists props. split; [reflexivity|].
    rewrite Hl. unfold JS.or. now rewrite Tr.
Qed.

Lemma summary_null_iff js_add js_gt_zero percent_toFixed2 props :
  getCustomUrlSummary js_add js_gt_zero percent_toFixed2 (VObj props)
    = Ret VNull
  <-> JS.truthy (JS.lookup "custom_url_validation" props) = false.
Proof.
  unfold getCustomUrlSummary. cbn [JS.get bind].
  destruct (JS.truthy (JS.lookup "custom_url_validation" props)); cbn [negb].
  - split; [|discriminate].
    destruct (perUrlResults _); try discriminate.
    destruct (reduce_count js_add "success_count" elems (VNum 0));
      cbn [bind]; [|discriminate].
    destruct (reduce_count js_add "failed_count" elems (VNum 0));
      cbn [bind]; [|discriminate].
    destruct (mapM project_entry elems); cbn [bind]; discriminate.
  - split; reflexivity.
Qed.

Lemma find_by_url_throws u l e :
  find_by_url u l = Throw e -> exists m, e = Exn TypeError m.
Proof.
  induction l as [|r l IH]; cbn [find_by_url]; [discriminate|].
  destruct (JS.get r "url") eqn:G; cbn [bind].
  - destruct (JS.strict_eq_str a u); [discriminate | exact IH].
  - intros H. injection H as <-.
    exact (RendererFacts.get_throws_TypeError _ _ _ G).
Qed.

Lemma filter_no_data_iff props u :
  filterByCustomUrl (VObj props) u = Throw NoValidationDataError
  <-> JS.truthy (JS.lookup "custom_url_validation" props) = false.
Proof.
  unfold filterByCustomUrl. cbn [JS.get bind].
  destruct (JS.truthy (JS.lookup "custom_url_validation" props)); cbn [negb].
  - split; [|discriminate].
    destruct (perUrlResults _); try discriminate.
    destruct (find_by_url u elems) as [found|e] eqn:F; cbn [bind].
    + destruct (negb (JS.truthy found)); [discriminate|].
      destruct (JS.get found "successful_proxies") eqn:G; cbn [bind];
        [discriminate|].
      intros H. injection H as ->.
      destruct (RendererFacts.get_throws_TypeError _ _ _ G) as [m Hm].
      discriminate Hm.
    + intros H. injection H as ->.
      destruct (find_by_url_throws u elems _ F) as [m Hm]. discriminate Hm.
  - split; reflexivity.
Qed.

(** X19: on a result that [check] returned, the summary is null and the
    lookup fails with NoValidationDataError exactly when neither the
    result payload nor the submission response carried custom
    validation. *)
Theorem validation_presence_agrees
    (js_add : jsval -> jsval -> jsval) (js_gt_zero : jsval -> bool)
    (percent_toFixed2 : jsval -> jsval -> string)
    (resultData data r : jsval) (u : string) :
  aggregate resultData data = Ret r ->
  let absent :=
    JS.truthy (JS.get' resultData "custom_url_validation") = false
    /\ JS.truthy (JS.get' data "custom_url_validation") = false in
  (getCustomUrlSummary js_add js_gt_zero percent_toFixed2 r = Ret VNull
   <-> absent)
  /\ (filterByCustomUrl r u = Throw NoValidationDataError <-> absent).
Proof.
  intros Ha absent.
  destruct (aggregate_custom_validation _ _ _ Ha) as (props & -> & Hl).
  rewrite summary_null_iff, filter_no_data_iff, Hl.
  split; apply or_or_null_falsy.
Qed.

Lemma validation_presence_agrees_witness :
  exists r,
    aggregate Sample.payload (VObj []) = Ret r
    /\ getCustomUrlSummary Sample.add Sample.gt_zero Sample.percent r
       = Ret VNull
    /\ filterByCustomUrl r "https://discord.com"
       = Throw NoValidationDataError.
Proof.
  eexists. split; [reflexivity|].
  destruct (validation_presence_agrees Sample.add Sample.gt_zero
              Sample.percent Sample.payload (VObj []) _
              "https://discord.com" eq_refl) as [[_ Hs] [_ Hf]].
  split; [apply Hs | apply Hf]; split; reflexivity.
Defined.

End AggregatorMore.

(* ================================================================== *)
(** ** The command line tool: its subscription *)
(* ================================================================== *)

Module CliMore.

Import Props MoreProps.

Lemma cli_surfaces_parse_error_witness :
  Cli.ingest Sample.world (Some "proxies.json") []
  = Throw (Exn Error "Failed to parse JSON: Unexpected end of JSON input").
Proof.
  apply (CliFacts.cli_surfaces_parse_error Sample.world "proxies.json" "{"
           (Exn SyntaxError "Unexpected end of JSON input") []);
    try reflexivity; discriminate.
Defined.

Ltac cli_done Done NoReq :=
  apply Done;
  [ cbn; lia | cbn; lia
  | first [ apply NoReq; reflexivity | intros; cbn; split; reflexivity ] ].

(** X22: the command line tool closes its subscription at most once, and
    always before it asks for the result; when the submission gets no
    response the subscription is left open. *)
Theorem cli_closes_before_result (E : env) (key : string)
    (proxies : list jsval) (region : option string) (timeout : Z)
    (type : string) (customUrls : list jsval) :
  let t := fst (Cli.submit E key proxies region timeout type customUrls) in
  (opens t <= 1)%nat
  /\ (closes t <= 1)%nat
  /\ (forall u, In (EvResultRequest u) t ->
        closes (before_result t) = 1%nat /\ closes t = 1%nat)
  /\ (forall e, (forall url body, fetch_post E url body = Throw e) ->
        closes t = 0%nat).
Proof.
  intros t. subst t. unfold Cli.submit.
  rewrite io_bind_lift. destruct (ws_new E _) as [[]|].
  2:{ cbn. repeat split; intros; auto; contradiction. }
  rewrite !io_bind_emit, io_bind_lift. cbn [fst].
  match goal with
  | |- context [fetch_post E ?url ?body] =>
      destruct (fetch_post E url body) as [res|e0] eqn:Hpost
  end.
  2:{ cbn. repeat split; intros; auto;
      repeat match goal with
             | H : In _ _ |- _ => simpl in H
             | H : _ \/ _ |- _ => destruct H
             | H : False |- _ => destruct H
             | H : _ = EvResultRequest _ |- _ => discriminate H
             end. }
  assert (Hno : forall e, (forall url body, fetch_post E url body = Throw e)
                          -> False).
  { intros e H. rewrite H in Hpost. discriminate Hpost. }
  assert (Done : forall tr : list event,
             (closes tr <= 1)%nat ->
             (opens tr <= 1)%nat ->
             (forall u, In (EvResultRequest u) tr ->
                closes (before_result tr) = 1%nat /\ closes tr = 1%nat) ->
             (opens tr <= 1)%nat
             /\ (closes tr <= 1)%nat
             /\ (forall u, In (EvResultRequest u) tr ->
                   closes (before_result tr) = 1%nat /\ closes tr = 1%nat)
             /\ (forall e, (forall url body, fetch_post E url body = Throw e)
                    -> closes tr = 0%nat)).
  { intros tr Hc Ho Hr. split; [exact Ho|]. split; [exact Hc|].
    split; [exact Hr|]. intros e He. destruct (Hno e He). }
  assert (NoReq : forall tr : list event,
             forallb (fun e => negb (is_result_request e)) tr = true ->
             forall u, In (EvResultRequest u) tr ->
               closes (before_result tr) = 1%nat /\ closes tr = 1%nat).
  { intros tr Hall u Hu. rewrite forallb_forall in Hall.
    specialize (Hall _ Hu). discriminate Hall. }
  rewrite io_bind_emit. cbn [fst].
  destruct (ok res); cbn [negb].
  2:{ destruct (text res); cli_done Done NoReq. }
  rewrite io_bind_lift. cbv beta iota. rewrite io_bind_lift.
  destruct (json res) as [data|];
    [|cli_done Done NoReq].
  rewrite io_bind_emit. cbn [fst]. rewrite io_bind_lift.
  destruct (JS.get data "result_url") as [ru|];
    [|cli_done Done NoReq].
  rewrite io_bind_lift.
  destruct (negb (JS.truthy ru));
    [cli_done Done NoReq|].
  rewrite io_bind_emit. cbn [fst]. rewrite io_bind_lift.
  destruct (fetch_get E ru) as [resultRes|];
    [|cli_done Done NoReq].
  rewrite io_bind_emit. cbn [fst]. rewrite io_bind_lift.
  destruct (negb (ok resultRes)); [cli_done Done NoReq|].
  rewrite io_bind_lift.
  destruct (json resultRes); cli_done Done NoReq.
Qed.

End CliMore.

(* ================================================================== *)
(** ** The command line tool: arguments and custom rules *)
(* ================================================================== *)

Module CliArguments.

Import Utils Props MoreProps.




Lemma includes_app a p b : Str.includes (a ++ p ++ b) p = true.
Proof.
  induction a as [|c a IH].
  - cbn [append]. destruct (p ++ b) eqn:E;
      cbn [Str.includes]; rewrite <- E, StringFacts.startsWith_app;
      reflexivity.
  - cbn [append Str.includes]. rewrite IH. apply orb_true_r.
Qed.

Lemma validate_rules_ok idx l :
  Cli.validate_rules idx l = Ret tt -> forallb cli_rule_ok l = true.
Proof.
  revert idx. induction l as [|r l IH]; intros idx; [reflexivity|].
  cbn [Cli.validate_rules forallb].
  destruct (JS.get r "url") as [url|] eqn:G; cbn [bind]; [|discriminate].
  destruct (JS.truthy url) eqn:T; cbn [negb]; [|discriminate].
  intros H. rewrite (IH _ H).
  unfold cli_rule_ok, present, JS.get'. rewrite G, T.
  destruct r; try discriminate G; reflexivity.
Qed.

Lemma validate_rules_offender idx good bad rest :
  forallb cli_rule_ok good = true ->
  present bad = true ->
  JS.truthy (JS.get' bad "url") = false ->
  Cli.validate_rules idx (good ++ bad :: rest)
  = Throw (Exn Error
      ("Custom URL at index " ++ Str.of_Z (idx + Z.of_nat (List.length good))
       ++ " is missing 'url' field")).
Proof.
  intros Hgood Hp Hbad. revert idx.
  induction good as [|r good IH]; intros idx.
  - cbn [app List.length Z.of_nat Cli.validate_rules]. rewrite Z.add_0_r.
    rewrite (AggregatorFacts.get_present _ _ Hp). cbn [bind].
    now rewrite Hbad.
  - cbn [forallb] in Hgood. apply andb_prop in Hgood as [Hr Hgood].
    unfold cli_rule_ok in Hr. apply andb_prop in Hr as [Hpr Ht].
    cbn [app Cli.validate_rules].
    rewrite (AggregatorFacts.get_present _ _ Hpr). cbn [bind].
    rewrite Ht. cbn [negb]. rewrite (IH Hgood).
    replace (idx + 1 + Z.of_nat (List.length good))
      with (idx + Z.of_nat (List.length (r :: good)))
      by (cbn [List.length]; lia).
    reflexivity.
Qed.

Lemma validate_rules_pass idx l :
  forallb cli_rule_ok l = true -> Cli.validate_rules idx l = Ret tt.
Proof.
  revert idx. induction l as [|r l IH]; intros idx H; [reflexivity|].
  cbn [forallb] in H. apply andb_prop in H as [Hr Hl].
  unfold cli_rule_ok in Hr. apply andb_prop in Hr as [Hp Ht].
  cbn [Cli.validate_rules].
  rewrite (AggregatorFacts.get_present _ _ Hp). cbn [bind].
  rewrite Ht. cbn [negb]. now apply IH.
Qed.

Lemma validate_rules_unreadable idx good bad rest e :
  forallb cli_rule_ok good = true ->
  JS.get bad "url" = Throw e ->
  Cli.validate_rules idx (good ++ bad :: rest) = Throw e.
Proof.
  intros Hgood Hbad. revert idx.
  induction good as [|r good IH]; intros idx.
  - cbn [app Cli.validate_rules]. now rewrite Hbad.
  - cbn [forallb] in Hgood. apply andb_prop in Hgood as [Hr Hgood].
    unfold cli_rule_ok in Hr. apply andb_prop in Hr as [Hpr Ht].
    cbn [app Cli.validate_rules].
    rewrite (AggregatorFacts.get_present _ _ Hpr). cbn [bind].
    rewrite Ht. cbn [negb]. now apply IH.
Qed.

Lemma missing_url_message n :
  Str.includes
    ("Custom URL at index " ++ Str.of_Z n ++ " is missing 'url' field")
    "missing" = true.
Proof.
  change (Str.of_Z n ++ " is missing 'url' field")
    with (Str.of_Z n ++ " is " ++ "missing" ++ " 'url' field").
  rewrite <- !StringFacts.append_assoc.
  rewrite (StringFacts.append_assoc _ "missing" " 'url' field").
  apply includes_app.
Qed.

Lemma get_url_message bad e :
  JS.get bad "url" = Throw e -> Str.includes (message e) "missing" = false.
Proof.
  destruct bad; cbn [JS.get]; intros H; try discriminate;
    injection H as <-; reflexivity.
Qed.

(** X24: the rules the command line tool reads from --custom.  The JSON
    text is the content of the file when the option names an existing
    .json file, and the option value itself otherwise; on either route:
    an error of the read or of JSON.parse is thrown again unchanged when
    its message contains the word missing, and is otherwise replaced by
    an Error whose message is that of the cause after the prefix
    Failed to parse --custom; a value that is not an array is refused
    under that prefix; a rule without a truthy url is reported by the
    index of the first one, in an error that is thrown unwrapped; a rule
    that is null fails under the prefix with the message of the property
    read; and the rules are returned, as parsed, exactly when each of
    them holds a truthy url. *)
Theorem parse_custom_outcomes (E : env) (custom : string) :
  let customPath := resolve_cwd E custom in
  let source :=
    if (existsSync E customPath && Str.endsWith customPath ".json")%bool
    then readFileSync E customPath else Ret custom in
  let passed_on cause :=
    if Str.includes (message cause) "missing" then cause
    else Exn Error ("Failed to parse --custom: " ++ message cause) in
  (forall cause, source = Throw cause ->
     Cli.parse_custom E custom = Throw (passed_on cause))
  /\ (forall text, source = Ret text ->
       (forall cause, JSON_parse E text = Throw cause ->
          Cli.parse_custom E custom = Throw (passed_on cause))
       /\ (forall v, JSON_parse E text = Ret v -> JS.isArray v = false ->
            Cli.parse_custom E custom
            = Throw (Exn Error
                "Failed to parse --custom: --custom must be a JSON array"))
       /\ (forall good bad rest,
            JSON_parse E text = Ret (VArr (good ++ bad :: rest)) ->
            forallb cli_rule_ok good = true ->
            (present bad = true ->
             JS.truthy (JS.get' bad "url") = false ->
             Cli.parse_custom E custom
             = Throw (Exn Error
                 ("Custom URL at index " ++
                  Str.of_Z (Z.of_nat (List.length good)) ++
                  " is missing 'url' field")))
            /\ (forall cause, JS.get bad "url" = Throw cause ->
                 Cli.parse_custom E custom
                 = Throw (Exn Error
                     ("Failed to parse --custom: " ++ message cause))))
       /\ (forall rules,
            JSON_parse E text = Ret (VArr rules) ->
            forallb cli_rule_ok rules = true ->
            Cli.parse_custom E custom = Ret rules)
       /\ (forall rules,
            Cli.parse_custom E custom = Ret rules ->
            JSON_parse E text = Ret (VArr rules)
            /\ forallb cli_rule_ok rules = true))
  /\ (forall e, Cli.parse_custom E custom = Throw e ->
        Str.includes (message e) "missing" = true
        \/ exists m, e = Exn Error ("Failed to parse --custom: " ++ m)).
Proof.
  intros customPath source passed_on.
  assert (Unfold : Cli.parse_custom E custom
    = try_catch
        (parsed <- (text <- source ;; JSON_parse E text) ;;
         match parsed with
         | VArr customUrls =>
             _ <- Cli.validate_rules 0 customUrls ;; Ret customUrls
         | _ => Throw (Exn Error "--custom must be a JSON array")
         end)
        (fun err => Throw (passed_on err))).
  { unfold Cli.parse_custom, source, passed_on, try_catch.
    fold customPath.
    destruct (existsSync E customPath && Str.endsWith customPath ".json")%bool.
    - destruct (readFileSync E customPath) as [content|e0]; cbn [bind].
      + destruct (JSON_parse E content) as [v|e1]; cbn [bind].
        * destruct v; cbn [bind];
            try (destruct (Str.includes _ "missing"); reflexivity).
          destruct (Cli.validate_rules 0 elems) as [[]|e2]; cbn [bind];
            [reflexivity|].
          destruct (Str.includes _ "missing"); reflexivity.
        * destruct (Str.includes _ "missing"); reflexivity.
      + destruct (Str.includes _ "missing"); reflexivity.
    - cbn [bind].
      destruct (JSON_parse E custom) as [v|e1]; cbn [bind].
      + destruct v; cbn [bind];
          try (destruct (Str.includes _ "missing"); reflexivity).
        destruct (Cli.validate_rules 0 elems) as [[]|e2]; cbn [bind];
          [reflexivity|].
        destruct (Str.includes _ "missing"); reflexivity.
      + destruct (Str.includes _ "missing"); reflexivity. }
  rewrite Unfold. clear Unfold.
  split; [|split].
  - intros cause ->. reflexivity.
  - intros text ->. cbn [bind].
    split; [|split; [|split; [|split]]].
    + intros cause ->. reflexivity.
    + intros v -> Hv. cbn [bind try_catch].
      destruct v; try discriminate Hv; reflexivity.
    + intros good bad rest -> Hgood. cbn [bind]. split.
      * intros Hp Hbad.
        rewrite (validate_rules_offender 0 good bad rest Hgood Hp Hbad).
        cbn [bind try_catch Z.add]. unfold passed_on. cbn [message].
        now rewrite missing_url_message.
      * intros cause Hbad.
        rewrite (validate_rules_unreadable 0 good bad rest cause Hgood Hbad).
        cbn [bind try_catch]. unfold passed_on.
        now rewrite (get_url_message bad cause Hbad).
    + intros rules -> Hrules. cbn [bind].
      rewrite (validate_rules_pass 0 rules Hrules). reflexivity.
    + intros rules H.
      destruct (JSON_parse E text) as [v|e1]; cbn [bind try_catch] in H;
        [|discriminate].
      destruct v; cbn [bind try_catch] in H; try discriminate.
      destruct (Cli.validate_rules 0 elems) as [[]|e2] eqn:V;
        cbn [bind try_catch] in H; [|discriminate].
      injection H as <-. split; [reflexivity|].
      exact (validate_rules_ok 0 elems V).
  - intros e. unfold try_catch.
    match goal with
    | |- context [match ?m with Ret _ => _ | Throw _ => _ end] =>
        destruct m as [rules|e0]
    end; [discriminate|].
    unfold passed_on.
    destruct (Str.includes (message e0) "missing") eqn:I;
      intros H; injection H as <-.
    + now left.
    + right. eexists. reflexivity.
Qed.

(** The file route and the text route, on the rules of custom.json: the
    second rule names no url, and the error is the same on both. *)
Lemma parse_custom_outcomes_witness :
  Cli.parse_custom MoreSample.world_with_rules "custom.json"
  = Throw (Exn Error "Custom URL at index 1 is missing 'url' field")
  /\ Cli.parse_custom MoreSample.world_with_rules MoreSample.rules_json
     = Throw (Exn Error "Custom URL at index 1 is missing 'url' field")
  /\ Cli.parse_custom MoreSample.world_with_rules "rules.json"
     = Throw (Exn Error
         "Failed to parse --custom: Unexpected end of JSON input").
Proof.
  split; [|split].
  - destruct (parse_custom_outcomes MoreSample.world_with_rules "custom.json")
      as (_ & H & _).
    destruct (H MoreSample.rules_json eq_refl) as (_ & _ & H3 & _).
    destruct (H3 [VObj [("url", VStr "https://discord.com")]]
                 (VObj [("requiredStatusCodes", VArr [VNum 200])]) []
                 eq_refl eq_refl) as [H4 _].
    exact (H4 eq_refl eq_refl).
  - destruct (parse_custom_outcomes MoreSample.world_with_rules
                MoreSample.rules_json) as (_ & H & _).
    destruct (H MoreSample.rules_json eq_refl) as (_ & _ & H3 & _).
    destruct (H3 [VObj [("url", VStr "https://discord.com")]]
                 (VObj [("requiredStatusCodes", VArr [VNum 200])]) []
                 eq_refl eq_refl) as [H4 _].
    exact (H4 eq_refl eq_refl).
  - destruct (parse_custom_outcomes MoreSample.world_with_rules "rules.json")
      as (_ & H & _).
    destruct (H "rules.json" eq_refl) as (H1 & _).
    exact (H1 (Exn SyntaxError "Unexpected end of JSON input") eq_refl).
Defined.

Example parse_custom_runs :
  Cli.parse_custom Sample.world "[]" = Ret []
  /\ Cli.parse_custom Sample.world "{"
     = Throw (Exn Error
         "Failed to parse --custom: Unexpected end of JSON input").
Proof. split; reflexivity. Qed.

End CliArguments.
